(** * LCIA - the self-service legal consultation agent

  A shallow embedding of [utils.py] and of the pipeline parts of [main.py]:
  the credential resolver, the sample-question catalogue, the prompt
  template and its formatting, [legal_agent] with its three nested
  exception handlers, the document reader, the three report builders and
  the consultation history kept in the Streamlit session.

  Python [str] values are modelled as [string], holding the UTF-8 encoding
  of the text: every delimiter the program looks at is ASCII, and a text
  occurs in another exactly when its encoding occurs in the other's.
  Exceptions are the ones deriving from [Exception]; what the program only
  calls (the secrets store, the process environment, the chat-completion
  chain, [json.loads], the PDF/DOCX readers, the UTF-8 codec) is gathered in
  one record of the run's surroundings, [world]. *)

From Stdlib Require Import String Ascii List ZArith NArith Lia Bool Arith.
From Stdlib Require Import DecimalString.
Import ListNotations.
Open Scope string_scope.
Set Warnings "-register-all".

(** ** Text *)

Module Str.

Definition dquote : ascii := "034"%char.
Definition newline : ascii := "010"%char.
Definition nl : string := String newline "".

(** A Python literal that contains double quotes is written here with a
    backquote in their place, and [text] puts the double quotes back; none
    of these literals contains a backquote of its own. *)
Fixpoint text (s : string) : string :=
  match s with
  | "" => ""
  | String c r => String (if Ascii.eqb c "`"%char then dquote else c) (text r)
  end.

Fixpoint prefixb (p s : string) : bool :=
  match p, s with
  | "", _ => true
  | String a p', String b s' => Ascii.eqb a b && prefixb p' s'
  | String _ _, "" => false
  end.

(** [sub in s] on Python strings. *)
Fixpoint occursb (sub s : string) : bool :=
  prefixb sub s ||
  match s with
  | "" => false
  | String _ r => occursb sub r
  end.

Definition occurs (sub s : string) : Prop :=
  exists pre post, s = pre ++ sub ++ post.

(** The fields occur one after the other, without overlap. *)
Fixpoint in_order (fields : list string) (s : string) : Prop :=
  match fields with
  | [] => True
  | f :: fs => exists pre post, s = pre ++ f ++ post /\ in_order fs post
  end.

Fixpoint drop (n : nat) (s : string) : string :=
  match n, s with
  | 0, _ => s
  | S n', String _ r => drop n' r
  | S _, "" => ""
  end.

(** What follows the leftmost occurrence of [f] in [s]. *)
Fixpoint after (f s : string) : option string :=
  if prefixb f s then Some (drop (String.length f) s)
  else
    match s with
    | "" => None
    | String _ r => after f r
    end.

(** [in_order], decided by taking each field at its leftmost place. *)
Fixpoint in_orderb (fields : list string) (s : string) : bool :=
  match fields with
  | [] => true
  | f :: fs =>
      match after f s with
      | Some rest => in_orderb fs rest
      | None => false
      end
  end.

(** [str(n)] for a non-negative [int]. *)
Definition of_nat (n : nat) : string :=
  DecimalString.NilZero.string_of_uint (Nat.to_uint n).

(** The characters of a text: a byte opens a new character unless it is a
    UTF-8 continuation byte (10xxxxxx). *)
Definition continuation (c : ascii) : bool :=
  let n := nat_of_ascii c in ((128 <=? n) && (n <? 192))%nat.

Fixpoint chars_from (cur : string) (s : string) : list string :=
  match s with
  | "" => [cur]
  | String c r =>
      if continuation c then chars_from (cur ++ String c "") r
      else cur :: chars_from (String c "") r
  end.

Definition chars (s : string) : list string :=
  match s with
  | "" => []
  | String c r => chars_from (String c "") r
  end.

End Str.

(** ** Python values *)

Module Py.

(** The values [json.loads] builds.  A [float] keeps the literal it was
    read from; a [dict] keeps its keys in insertion order. *)
Inductive value : Type :=
| PNone
| PBool (b : bool)
| PInt (z : Z)
| PFloat (literal : string)
| PStr (s : string)
| PList (l : list value)
| PDict (d : list (string * value)).

Inductive exn : Type :=
| Exception (str : string).

Definition str_of_exn (e : exn) : string :=
  match e with Exception s => s end.

Inductive outcome (A : Type) : Type :=
| Returned (a : A)
| Raised (e : exn).
Arguments Returned {A} a.
Arguments Raised {A} e.

(** A [dict] with [str] keys, in insertion order; [lookup] is [d.get(k)]. *)
Fixpoint lookup {A : Type} (k : string) (d : list (string * A)) : option A :=
  match d with
  | [] => None
  | (k', v) :: r => if String.eqb k k' then Some v else lookup k r
  end.

(** [d[k] = v]: an existing key keeps its place. *)
Fixpoint store (k : string) (v : value) (d : list (string * value))
  : list (string * value) :=
  match d with
  | [] => [(k, v)]
  | (k', v') :: r =>
      if String.eqb k k' then (k, v) :: r else (k', v') :: store k v r
  end.

(** [x.get(k, default)]; only a [dict] has the method. *)
Definition get (x : value) (k : string) (default : value) : option value :=
  match x with
  | PDict d => Some (match lookup k d with Some v => v | None => default end)
  | _ => None
  end.

(** [iter(x)]: the elements of a list, the keys of a dict, the characters
    of a string; the other values are not iterable. *)
Definition iter (x : value) : option (list value) :=
  match x with
  | PList l => Some l
  | PDict d => Some (map (fun kv => PStr (fst kv)) d)
  | PStr s => Some (map PStr (Str.chars s))
  | _ => None
  end.

(** [prefix + x]: concatenation to a [str] needs a [str]. *)
Definition add_str (prefix : string) (x : value) : option string :=
  match x with
  | PStr s => Some (prefix ++ s)
  | _ => None
  end.

(** Truth value of an optional string ([None] and [""] are false). *)
Definition truthy (k : option string) : bool :=
  match k with
  | None => false
  | Some "" => false
  | Some _ => true
  end.

(** [l[start:]] *)
Definition slice_from {A : Type} (start : Z) (l : list A) : list A :=
  let n := Z.of_nat (List.length l) in
  let i := if (start <? 0)%Z then Z.max (start + n) 0 else Z.min start n in
  skipn (Z.to_nat i) l.

(** [all] of the options, in order; the first failure wins. *)
Fixpoint sequence {A : Type} (l : list (option A)) : option (list A) :=
  match l with
  | [] => Some []
  | None :: _ => None
  | Some a :: r =>
      match sequence r with
      | Some r' => Some (a :: r')
      | None => None
      end
  end.

Fixpoint enumerate {A : Type} (start : nat) (l : list A) : list (nat * A) :=
  match l with
  | [] => []
  | a :: r => (start, a) :: enumerate (S start) r
  end.

End Py.

(** ** A reference JSON decoder

  [json.loads] belongs to Python's library, so the program is modelled over
  any decoder (see [world]).  This one follows the library's scanner
  (whitespace, literals, numbers, strings with escapes, arrays, objects,
  one document per text) and serves to run the program on concrete
  replies.  It is the grammar alone, without the interpreter's limits: on a
  text nested deeper than the recursion limit, or with an integer of more
  digits than the interpreter converts, [json.loads] raises RecursionError
  or ValueError, which a decoder of the program reports as [Crashed]
  (see [Cases.loads_within_limit]). *)

Module JSON.
Import Py.

Inductive loads_outcome : Type :=
| Decoded (v : value)
| NotJSON                (* raises json.JSONDecodeError *)
| Crashed (e : exn).     (* raises another exception *)

Definition is_ws (c : ascii) : bool :=
  let n := nat_of_ascii c in
  ((n =? 32) || (n =? 9) || (n =? 10) || (n =? 13))%nat.

Fixpoint skip_ws (s : string) : string :=
  match s with
  | "" => ""
  | String c r => if is_ws c then skip_ws r else s
  end.

Definition is_digit (c : ascii) : bool :=
  let n := nat_of_ascii c in ((48 <=? n) && (n <=? 57))%nat.

Definition digit_val (c : ascii) : Z := Z.of_nat (nat_of_ascii c - 48).

Fixpoint digits (s : string) : string * string :=
  match s with
  | "" => ("", "")
  | String c r =>
      if is_digit c then let (d, r') := digits r in (String c d, r')
      else ("", s)
  end.

Fixpoint int_of_digits (acc : Z) (d : string) : Z :=
  match d with
  | "" => acc
  | String c r => int_of_digits (10 * acc + digit_val c) r
  end.

(** A zero, or a non-zero digit followed by digits. *)
Definition integer_part (s : string) : option (string * string) :=
  match s with
  | "" => None
  | String c r =>
      if Ascii.eqb c "0"%char then Some ("0", r)
      else if is_digit c then let (d, r') := digits r in Some (String c d, r')
      else None
  end.

(** A dot followed by one digit at least, if any. *)
Definition fraction_part (s : string) : string * string :=
  match s with
  | String c r =>
      if Ascii.eqb c "."%char then
        match digits r with
        | ("", _) => ("", s)
        | (d, r') => (String c d, r')
        end
      else ("", s)
  | "" => ("", s)
  end.

(** An [e] or [E], a sign if any, and one digit at least, if any. *)
Definition exponent_part (s : string) : string * string :=
  match s with
  | String e r =>
      if Ascii.eqb e "e"%char || Ascii.eqb e "E"%char then
        let (sign, r1) :=
          match r with
          | String g r0 =>
              if Ascii.eqb g "-"%char || Ascii.eqb g "+"%char
              then (String g "", r0) else ("", r)
          | "" => ("", r)
          end in
        match digits r1 with
        | ("", _) => ("", s)
        | (d, r') => (String e (sign ++ d), r')
        end
      else ("", s)
  | "" => ("", s)
  end.

Definition number (s : string) : option (value * string) :=
  let (sign, s1) :=
    match s with
    | String c r => if Ascii.eqb c "-"%char then ("-", r) else ("", s)
    | "" => ("", s)
    end in
  match integer_part s1 with
  | None => None
  | Some (int, r) =>
      let (frac, r1) := fraction_part r in
      let (exp, r2) := exponent_part r1 in
      match frac, exp with
      | "", "" =>
          let z := int_of_digits 0 int in
          Some (PInt (if String.eqb sign "-" then - z else z)%Z, r2)
      | _, _ => Some (PFloat (sign ++ int ++ frac ++ exp), r2)
      end
  end.

Definition hex_val (c : ascii) : option N :=
  let n := N_of_ascii c in
  if ((48 <=? n) && (n <=? 57))%N then Some (n - 48)%N
  else if ((97 <=? n) && (n <=? 102))%N then Some (n - 87)%N
  else if ((65 <=? n) && (n <=? 70))%N then Some (n - 55)%N
  else None.

Definition hex4 (a b c d : ascii) : option N :=
  match hex_val a, hex_val b, hex_val c, hex_val d with
  | Some x, Some y, Some z, Some w => Some (((x * 16 + y) * 16 + z) * 16 + w)%N
  | _, _, _, _ => None
  end.

Definition byte (n : N) : string := String (ascii_of_N n) "".

(** The UTF-8 encoding of a code point; a lone surrogate keeps its three
    byte form. *)
Definition utf8 (cp : N) : string :=
  (if cp <? 128 then byte cp
   else if cp <? 2048 then byte (192 + cp / 64) ++ byte (128 + cp mod 64)
   else if cp <? 65536 then
     byte (224 + cp / 4096) ++ byte (128 + (cp / 64) mod 64)
       ++ byte (128 + cp mod 64)
   else
     byte (240 + cp / 262144) ++ byte (128 + (cp / 4096) mod 64)
       ++ byte (128 + (cp / 64) mod 64) ++ byte (128 + cp mod 64))%N.

Definition high_surrogate (n : N) : bool := ((55296 <=? n) && (n <=? 56319))%N.
Definition low_surrogate (n : N) : bool := ((56320 <=? n) && (n <=? 57343))%N.

Definition simple_escape (e : ascii) : option ascii :=
  if Ascii.eqb e Str.dquote then Some Str.dquote
  else if Ascii.eqb e "\"%char then Some "\"%char
  else if Ascii.eqb e "/"%char then Some "/"%char
  else if Ascii.eqb e "b"%char then Some "008"%char
  else if Ascii.eqb e "f"%char then Some "012"%char
  else if Ascii.eqb e "n"%char then Some "010"%char
  else if Ascii.eqb e "r"%char then Some "013"%char
  else if Ascii.eqb e "t"%char then Some "009"%char
  else None.

Definition prepend (p : string) (r : option (string * string))
  : option (string * string) :=
  match r with
  | Some (s, rest) => Some (p ++ s, rest)
  | None => None
  end.

(** The text of a string literal, read after its opening quote. *)
Fixpoint string_body (s : string) : option (string * string) :=
  match s with
  | "" => None
  | String c r =>
      if Ascii.eqb c Str.dquote then Some ("", r)
      else if Ascii.eqb c "\"%char then
        match r with
        | "" => None
        | String e r1 =>
            if Ascii.eqb e "u"%char then
              match r1 with
              | String h1 (String h2 (String h3 (String h4 r2))) =>
                  match hex4 h1 h2 h3 h4 with
                  | None => None
                  | Some hi =>
                      match r2 with
                      | String b (String u (String l1 (String l2
                          (String l3 (String l4 r3))))) =>
                          match hex4 l1 l2 l3 l4 with
                          | Some lo =>
                              if Ascii.eqb b "\"%char && Ascii.eqb u "u"%char
                                 && high_surrogate hi && low_surrogate lo
                              then
                                prepend
                                  (utf8 (65536 + (hi - 55296) * 1024
                                         + (lo - 56320))%N)
                                  (string_body r3)
                              else prepend (utf8 hi) (string_body r2)
                          | None => prepend (utf8 hi) (string_body r2)
                          end
                      | _ => prepend (utf8 hi) (string_body r2)
                      end
                  end
              | _ => None
              end
            else
              match simple_escape e with
              | Some ch => prepend (String ch "") (string_body r1)
              | None => None
              end
        end
      else if (nat_of_ascii c <? 32)%nat then None
      else prepend (String c "") (string_body r)
  end.

Section Containers.
Variable scan_once : string -> option (value * string).

(** The elements of an array, read from the first one on. *)
Fixpoint elements (n : nat) (s : string) : option (list value * string) :=
  match n with
  | 0 => None
  | S n' =>
      match scan_once s with
      | None => None
      | Some (v, r) =>
          match skip_ws r with
          | "" => None
          | String c r' =>
              if Ascii.eqb c "]"%char then Some ([v], r')
              else if Ascii.eqb c ","%char then
                match elements n' (skip_ws r') with
                | Some (vs, r'') => Some (v :: vs, r'')
                | None => None
                end
              else None
          end
      end
  end.

(** The members of an object, read from the first key's quote on; they
    are stored one by one into [acc]. *)
Fixpoint members (n : nat) (acc : list (string * value)) (s : string)
  : option (list (string * value) * string) :=
  match n with
  | 0 => None
  | S n' =>
      match s with
      | "" => None
      | String q r =>
          if negb (Ascii.eqb q Str.dquote) then None
          else
            match string_body r with
            | None => None
            | Some (k, r1) =>
                match skip_ws r1 with
                | "" => None
                | String colon r2 =>
                    if negb (Ascii.eqb colon ":"%char) then None
                    else
                      match scan_once (skip_ws r2) with
                      | None => None
                      | Some (v, r3) =>
                          let acc' := store k v acc in
                          match skip_ws r3 with
                          | "" => None
                          | String c r4 =>
                              if Ascii.eqb c "}"%char then Some (acc', r4)
                              else if Ascii.eqb c ","%char
                              then members n' acc' (skip_ws r4)
                              else None
                          end
                      end
                end
            end
      end
  end.
End Containers.

(** One JSON value at the head of [s]. *)
Fixpoint scan (fuel : nat) (s : string) : option (value * string) :=
  match fuel with
  | 0 => None
  | S fuel' =>
      match s with
      | "" => None
      | String c r =>
          if Ascii.eqb c Str.dquote then
            match string_body r with
            | Some (t, r') => Some (PStr t, r')
            | None => None
            end
          else if Ascii.eqb c "{"%char then
            match skip_ws r with
            | "" => None
            | String c' r' =>
                if Ascii.eqb c' "}"%char then Some (PDict [], r')
                else
                  match members (scan fuel') (String.length s) []
                          (String c' r') with
                  | Some (d, r'') => Some (PDict d, r'')
                  | None => None
                  end
            end
          else if Ascii.eqb c "["%char then
            match skip_ws r with
            | "" => None
            | String c' r' =>
                if Ascii.eqb c' "]"%char then Some (PList [], r')
                else
                  match elements (scan fuel') (String.length s)
                          (String c' r') with
                  | Some (l, r'') => Some (PList l, r'')
                  | None => None
                  end
            end
          else if Str.prefixb "null" s then Some (PNone, Str.drop 4 s)
          else if Str.prefixb "true" s then Some (PBool true, Str.drop 4 s)
          else if Str.prefixb "false" s then Some (PBool false, Str.drop 5 s)
          else
            match number s with
            | Some r' => Some r'
            | None =>
                if Str.prefixb "NaN" s then Some (PFloat "NaN", Str.drop 3 s)
                else if Str.prefixb "Infinity" s
                then Some (PFloat "Infinity", Str.drop 8 s)
                else if Str.prefixb "-Infinity" s
                then Some (PFloat "-Infinity", Str.drop 9 s)
                else None
            end
      end
  end.

Definition byte_order_mark : string :=
  String "239"%char (String "187"%char (String "191"%char "")).

(** [json.loads(s)]: one value, surrounded by whitespace only. *)
Definition loads (s : string) : loads_outcome :=
  if Str.prefixb byte_order_mark s then NotJSON
  else
    match scan (S (String.length s)) (skip_ws s) with
    | Some (v, r) =>
        match skip_ws r with
        | "" => Decoded v
        | String _ _ => NotJSON
        end
    | None => NotJSON
    end.

End JSON.


(** ** str.format

  The replacement fields of the program's template are plain names, so a
  field is read as a name up to its closing brace; doubled braces stand
  for themselves. *)

Module Format.

Inductive piece : Type :=
| Lit (s : string)
| Field (name : string).

Definition lit (c : ascii) (ps : list piece) : list piece :=
  match ps with
  | Lit s :: r => Lit (String c s) :: r
  | _ => Lit (String c "") :: ps
  end.

Fixpoint outside (s : string) : option (list piece) :=
  match s with
  | "" => Some []
  | String c r =>
      if Ascii.eqb c "{"%char then
        match r with
        | "" => None
        | String c' r' =>
            if Ascii.eqb c' "{"%char then option_map (lit c) (outside r')
            else inside "" r
        end
      else if Ascii.eqb c "}"%char then
        match r with
        | "" => None
        | String c' r' =>
            if Ascii.eqb c' "}"%char then option_map (lit c) (outside r')
            else None
        end
      else option_map (lit c) (outside r)
  end
with inside (name : string) (s : string) : option (list piece) :=
  match s with
  | "" => None
  | String c r =>
      if Ascii.eqb c "}"%char then option_map (cons (Field name)) (outside r)
      else if Ascii.eqb c "{"%char then None
      else inside (name ++ String c "") r
  end.

Fixpoint render (kwargs : list (string * string)) (ps : list piece)
  : option string :=
  match ps with
  | [] => Some ""
  | Lit s :: r => option_map (append s) (render kwargs r)
  | Field name :: r =>
      match Py.lookup name kwargs, render kwargs r with
      | Some v, Some t => Some (v ++ t)
      | _, _ => None
      end
  end.

(** [template.format] applied to keyword arguments; [None] when it
    raises. *)
Definition format (template : string) (kwargs : list (string * string))
  : option string :=
  match outside template with
  | Some ps => render kwargs ps
  | None => None
  end.

End Format.

(** ** The run's surroundings and the program state *)

Module Run.
Import Py.

(** One entry of [st.session_state.chat_history]: the dict a tab appends,
    with the keys only some tabs write as options. *)
Record history_item : Type := {
  item_type : string;
  item_query : string;
  item_document : option string;
  item_case_details : option string;
  item_result : value;
  item_timestamp : string
}.

(** [st.session_state] *)
Record session_state : Type := {
  chat_history : list history_item;
  doc_content : option string;
  consultation_results : list value;
  legal_domain : string
}.

(** What the script puts on the page. *)
Inductive element : Type :=
| st_error (body : string)
| st_warning (body : string).

(** What the agent hands to the library when it starts a chain: the model
    as configured and the formatted prompt.  What the client sends over the
    network for it, and how often, is the library's business. *)
Record request : Type := {
  api_key : option string;
  base_url : string;
  model : string;
  temperature : string;        (* the float, as the source writes it *)
  max_tokens : Z;
  prompt : string
}.

(** The state of a run: the session, what was put on the page and printed,
    and the chains that were started, each with its request. *)
Record machine : Type := {
  session : session_state;
  page : list element;
  stdout : list string;
  requests : list request
}.

(** Everything the program calls but does not define. *)
Record world : Type := {
  (** [st.secrets['API_KEY']] *)
  secrets_API_KEY : outcome string;
  (** [os.environ] once [dotenv] is imported and [load_dotenv()] has run *)
  dotenv_environ : outcome (list (string * string));
  (** building the model, the prompt and the chain, and [chain.run]: it
      raises when any of them does, and returns the reply otherwise *)
  chain_run : request -> outcome string;
  json_loads : string -> JSON.loads_outcome;
  (** [str] of a float, a list or a dict *)
  str_of_other : value -> string;
  PDF_SUPPORT : bool;
  DOCX_SUPPORT : bool;
  (** [PyPDF2.PdfReader(f)] and [extract_text()] of its pages, in order *)
  pdf_page_texts : list Byte.byte -> outcome (list string);
  (** [docx.Document(f)] and the [text] of its paragraphs, in order *)
  docx_paragraph_texts : list Byte.byte -> outcome (list string);
  (** [bytes.decode("utf-8")] *)
  decode_utf8 : list Byte.byte -> outcome string
}.

(** Computations: the machine is threaded through, and an exception leaves
    it as it was when raised. *)
Definition M (A : Type) : Type := machine -> outcome A * machine.

Definition ret {A : Type} (a : A) : M A := fun m => (Returned a, m).

Definition raise {A : Type} (e : exn) : M A := fun m => (Raised e, m).

Definition bind {A B : Type} (c : M A) (k : A -> M B) : M B :=
  fun m =>
    match c m with
    | (Returned a, m') => k a m'
    | (Raised e, m') => (Raised e, m')
    end.

(** [try: body / except Exception as e: handler] *)
Definition try_except {A : Type} (body : M A) (handler : exn -> M A) : M A :=
  fun m =>
    match body m with
    | (Returned a, m') => (Returned a, m')
    | (Raised e, m') => handler e m'
    end.

Definition lift {A : Type} (o : outcome A) : M A := fun m => (o, m).

Definition show (e : element) : M unit :=
  fun m => (Returned tt,
            {| session := session m; page := page m ++ [e];
               stdout := stdout m; requests := requests m |}).

Definition print (line : string) : M unit :=
  fun m => (Returned tt,
            {| session := session m; page := page m;
               stdout := stdout m ++ [line]; requests := requests m |}).

(** The agent starts a chain with [r]. *)
Definition send (r : request) : M unit :=
  fun m => (Returned tt,
            {| session := session m; page := page m;
               stdout := stdout m; requests := requests m ++ [r] |}).

Definition get_session : M session_state :=
  fun m => (Returned (session m), m).

Definition put_session (s : session_state) : M unit :=
  fun m => (Returned tt,
            {| session := s; page := page m;
               stdout := stdout m; requests := requests m |}).

(** [for x in l: f(x)] *)
Fixpoint for_each {A : Type} (f : A -> M unit) (l : list A) : M unit :=
  match l with
  | [] => ret tt
  | x :: r => bind (f x) (fun _ => for_each f r)
  end.

(** [str(v)], which is also what an f-string puts for [{v}]. *)
Definition str (w : world) (v : value) : string :=
  match v with
  | PStr s => s
  | PNone => "None"
  | PBool true => "True"
  | PBool false => "False"
  | PInt z => DecimalString.NilZero.string_of_int (Z.to_int z)
  | _ => str_of_other w v
  end.

End Run.

Declare Scope prog_scope.
Delimit Scope prog_scope with prog.
Notation "x <- c ;; k" := (Run.bind c (fun x => k))
(at level 61, c at next level, right associativity) : prog_scope.
Notation "c ;; k" := (Run.bind c (fun _ => k))
(at level 61, right associativity) : prog_scope.

(** ** utils.py *)

Module Utils.
Import Py Run.
Local Open Scope prog_scope.

Definition LEGAL_DOMAINS : list string := [
  "一般法律咨询";
  "劳动法";
  "合同法";
  "婚姻家庭法";
  "刑事法";
  "民事诉讼";
  "商业法";
  "知识产权";
  "房地产法";
  "行政法";
  "交通事故";
  "消费者权益";
  "医疗纠纷"
].

Definition SAMPLE_QUESTIONS : list (string * list string) := [
  ("一般法律咨询", [
      "如何查询某项法律法规的最新版本？";
      "我需要法律援助，应该如何申请？";
      "什么情况下需要公证？"
  ]);
  ("劳动法", [
      "单位无故拖欠工资怎么办？";
      "试用期被辞退是否有赔偿？";
      "加班费如何计算？"
  ]);
  ("合同法", [
      "口头协议是否具有法律效力？";
      "合同中的违约金上限是多少？";
      "对方不履行合同义务怎么办？"
  ]);
  ("婚姻家庭法", [
      "离婚时财产如何分割？";
      "如何申请子女抚养权？";
      "家庭暴力应如何寻求法律保护？"
  ]);
  ("刑事法", [
      "什么是正当防卫？";
      "取保候审的条件是什么？";
      "轻伤和重伤的法律界定标准是什么？"
  ]);
  ("民事诉讼", [
      "民事诉讼的基本流程是什么？";
      "如何申请法院强制执行？";
      "民事诉讼的诉讼时效是多久？"
  ]);
  ("商业法", [
      "注册公司的基本法律要求是什么？";
      "股东权益如何得到法律保障？";
      "公司破产清算的流程是什么？"
  ]);
  ("知识产权", [
      "如何为自己的创意申请专利？";
      "商标侵权的判定标准是什么？";
      "软件著作权保护期限是多久？"
  ]);
  ("房地产法", [
      "二手房交易中需要注意哪些法律问题？";
      "房屋租赁合同必须包含哪些条款？";
      "业主维权的法律途径有哪些？"
  ]);
  ("行政法", [
      "如何申请政府信息公开？";
      "行政复议的申请条件和流程是什么？";
      "行政处罚决定不服如何救济？"
  ]);
  ("交通事故", [
      "交通事故责任如何认定？";
      "交通事故赔偿项目包括哪些？";
      "交通事故调解不成功怎么办？"
  ]);
  ("消费者权益", [
      "网购商品存在质量问题如何维权？";
      "餐饮食品安全问题的赔偿标准是什么？";
      "如何投诉商家虚假宣传？"
  ]);
  ("医疗纠纷", [
      "医疗事故与医疗过错的区别是什么？";
      "医疗损害赔偿的构成要件有哪些？";
      "如何收集医疗纠纷证据？"
  ])
].

Definition PROMPT_TEMPLATE : string := Str.text
"你是一位专业的法律顾问，请根据用户的问题提供准确、客观的法律信息和建议。

请注意，你的回答应当：
1. 基于中国现行法律法规，避免给出可能误导用户的个人见解
2. 明确指出法律的局限性和不确定性
3. 提醒用户在重要法律事务上咨询专业律师
4. 提供清晰、结构化的回答

当前咨询类型: {consult_type}
法律领域: {legal_domain}

请按照以下JSON格式回应:

对于基本法律信息:
{{`answer`: `详细的法律解释和信息`, `references`: [`相关法律条款1`, `相关法律条款2`]}}

对于法律文件解读:
{{`answer`: `对文件的解释和分析`, `references`: [`相关法律依据1`, `相关法律依据2`]}}

对于案件研究与策略:
{{`answer`: `对案件的分析`, `steps`: [`建议步骤1`, `建议步骤2`], `references`: [`相关法律案例1`, `相关法律案例2`]}}

用户问题: {query}
".

Definition get_legal_domains : list string := LEGAL_DOMAINS.

(** [SAMPLE_QUESTIONS.get(domain, SAMPLE_QUESTIONS["一般法律咨询"])]: the
    default is looked up first, and a missing key raises [KeyError]. *)
Definition get_sample_questions (domain : string) : outcome (list string) :=
  match lookup "一般法律咨询" SAMPLE_QUESTIONS with
  | None => Raised (Exception "'一般法律咨询'")
  | Some default =>
      Returned (match lookup domain SAMPLE_QUESTIONS with
                | Some questions => questions
                | None => default
                end)
  end.

(** [os.getenv(name, default)] *)
Definition getenv (environ : list (string * string)) (name : string)
  (default : string) : string :=
  match lookup name environ with
  | Some v => v
  | None => default
  end.

Definition get_api_credentials (w : world) : M (option string * string) :=
  try_except
    (api_key <- lift (secrets_API_KEY w) ;;
     let api_base := "https://twapi.openai-hk.com/v1" in
     ret (Some api_key, api_base))
    (fun e =>
       found <-
         try_except
           (environ <- lift (dotenv_environ w) ;;
            let api_key := lookup "OPENAI_API_KEY" environ in
            let api_base :=
              getenv environ "OPENAI_API_BASE"
                "https://twapi.openai-hk.com/v1" in
            ret (if truthy api_key then Some (api_key, api_base) else None))
           (fun _ => ret None) ;;
       match found with
       | Some credentials => ret credentials
       | None =>
           show (st_error ("获取API凭据时出错: " ++ str_of_exn e)) ;;
           ret (None, "https://api.openai.com/v1")
       end).

(** The prompt the chain formats from [PROMPT_TEMPLATE] and its three
    input variables. *)
Definition compose (query consult_type legal_domain : string)
  : option string :=
  Format.format PROMPT_TEMPLATE
    [("query", query); ("consult_type", consult_type);
     ("legal_domain", legal_domain)].

Definition answer_with (answer : string) (reference : string) : value :=
  PDict [("answer", PStr answer); ("references", PList [PStr reference])].

(** The model as [legal_agent] configures it, with the formatted prompt. *)
Definition chat_request (api_key : option string) (api_base text : string)
  : request :=
  {| api_key := api_key;
     base_url := api_base;
     model := "gpt-3.5-turbo";
     temperature := "0.2";
     max_tokens := 4096;
     prompt := text |}.

(** The innermost [try] of [legal_agent]: [json.loads(response)], with
    its handler for [json.JSONDecodeError]. *)
Definition parse_response (w : world) (response : string) : M value :=
  match json_loads w response with
  | JSON.Decoded v => ret v
  | JSON.NotJSON => ret (answer_with response "无法识别格式化参考")
  | JSON.Crashed e => raise e
  end.

Definition legal_agent (w : world)
  (query consult_type legal_domain : string) : M value :=
  try_except
    (credentials <- get_api_credentials w ;;
     let (api_key, api_base) := credentials in
     if negb (truthy api_key) then
       ret (answer_with
              "错误：未找到API密钥。请在Streamlit Secrets中设置API_KEY。"
              "请在Streamlit设置中添加API_KEY")
     else
       try_except
         (response <-
            match compose query consult_type legal_domain with
            | None => (* an ill-formed template; never so for this one *)
                raise (Exception "invalid prompt template")
            | Some text =>
                let r := chat_request api_key api_base text in
                send r ;; lift (chain_run w r)
            end ;;
          parse_response w response)
         (fun e =>
            ret (answer_with
                   ("抱歉，无法连接到AI服务：" ++ str_of_exn e)
                   "请检查您的API密钥和网络连接")))
    (fun err =>
       print ("Error: " ++ str_of_exn err) ;;
       ret (answer_with
              ("抱歉，处理您的请求时遇到了问题：" ++ str_of_exn err
                 ++ "。请稍后再试。")
              "系统错误")).

End Utils.

(** ** main.py *)

Module Main.
Import Py Run.
Local Open Scope prog_scope.

Definition display_document_content (w : world)
  (doc_file : list Byte.byte) (file_type : string) : M (option string) :=
  try_except
    (if file_type =? "pdf" then
       if negb (PDF_SUPPORT w) then
         show (st_warning
           "未安装PyPDF2库，无法处理PDF文件。请运行 `pip install PyPDF2` 安装。") ;;
         ret None
       else
         pages <- lift (pdf_page_texts w doc_file) ;;
         ret (Some (fold_left append pages ""))
     else if file_type =? "docx" then
       if negb (DOCX_SUPPORT w) then
         show (st_warning
           "未安装python-docx库，无法处理Word文件。请运行 `pip install python-docx` 安装。") ;;
         ret None
       else
         paragraphs <- lift (docx_paragraph_texts w doc_file) ;;
         ret (Some (String.concat Str.nl paragraphs))
     else if file_type =? "txt" then
       content <- lift (decode_utf8 w doc_file) ;;
       ret (Some content)
     else ret None)
    (fun e =>
       show (st_error ("文件解析错误: " ++ str_of_exn e)) ;;
       ret None).

(** [init_session_state()] on a session that holds none of the keys. *)
Definition init_session_state : session_state :=
  {| chat_history := [];
     doc_content := None;
     consultation_results := [];
     legal_domain := "一般法律咨询" |}.

(** [st.session_state.chat_history.append(item)] *)
Definition append_history (item : history_item) : M unit :=
  s <- get_session ;;
  put_session {| chat_history := chat_history s ++ [item];
                 doc_content := doc_content s;
                 consultation_results := consultation_results s;
                 legal_domain := legal_domain s |}.

(** The button that clears the history. *)
Definition clear_history : M unit :=
  s <- get_session ;;
  put_session {| chat_history := [];
                 doc_content := doc_content s;
                 consultation_results := [];
                 legal_domain := legal_domain s |}.

(** The items the history section goes through, in its order:
    [reversed(st.session_state.chat_history[-5:])], under the test that
    the history is not empty. *)
Definition displayed_history : M (list history_item) :=
  s <- get_session ;;
  match chat_history s with
  | [] => ret []
  | _ :: _ => ret (rev (slice_from (-5) (chat_history s)))
  end.

(** The consultation types, one per tab, and the text each tab passes to
    [legal_agent] and saves as the item's type. *)
Inductive consult_type : Type :=
| BasicInfo
| DocumentInterpretation
| CaseStrategy.

Definition label (c : consult_type) : string :=
  match c with
  | BasicInfo => "基本法律信息"
  | DocumentInterpretation => "法律文件解读"
  | CaseStrategy => "案件研究与策略"
  end.

(** What each tab saves once the agent has answered. *)
Definition basic_item (query : string) (result : value) (timestamp : string)
  : history_item :=
  {| item_type := "基本法律信息";
     item_query := query;
     item_document := None;
     item_case_details := None;
     item_result := result;
     item_timestamp := timestamp |}.


Definition case_item (case_details case_query : string) (result : value)
  (timestamp : string) : history_item :=
  {| item_type := "案件研究与策略";
     item_query := case_query;
     item_document := None;
     item_case_details := Some case_details;
     item_result := result;
     item_timestamp := timestamp |}.

(** The first tab's button, up to the saved result; [timestamp] is the
    clock read after the agent returns. *)
Definition basic_info_button (w : world) (query timestamp : string)
  : M (option value) :=
  if query =? "" then
    show (st_warning "请输入您的咨询问题") ;; ret None
  else
    s <- get_session ;;
    result <- Utils.legal_agent w query "基本法律信息" (legal_domain s) ;;
    append_history (basic_item query result timestamp) ;;
    ret (Some result).

(** ['- ' + ref for ref in result.get('references', [])] *)
Definition reference_lines (result : value) : option (list string) :=
  match get result "references" (PList []) with
  | None => None
  | Some references =>
      match iter references with
      | None => None
      | Some l => sequence (map (add_str "- ") l)
      end
  end.

(** [str(i+1) + '. ' + step for i, step in
     enumerate(result.get('steps', []))] *)
Definition step_lines (result : value) : option (list string) :=
  match get result "steps" (PList []) with
  | None => None
  | Some steps =>
      match iter steps with
      | None => None
      | Some l =>
          sequence
            (map (fun p => add_str (Str.of_nat (fst p + 1) ++ ". ") (snd p))
                 (enumerate 0 l))
      end
  end.

(** The three reports; [None] when building one raises ([result] is not a
    dict, or a list it reads cannot be gone through as texts). *)
Definition basic_report (w : world) (timestamp legal_domain query : string)
  (result : value) : option string :=
  match get result "answer" (PStr ""), reference_lines result with
  | Some answer, Some references =>
      Some ("法律咨询报告
日期: " ++ timestamp ++ "
咨询类型: 基本法律信息
法律领域: " ++ legal_domain ++ "
问题: " ++ query ++ "

法律建议:
" ++ str w answer ++ "

法律参考:
" ++ String.concat Str.nl references ++ "
")
  | _, _ => None
  end.

Definition document_report (w : world) (timestamp : string)
  (doc_name : option string) (doc_query : string) (result : value)
  : option string :=
  match get result "answer" (PStr ""), reference_lines result with
  | Some answer, Some references =>
      Some ("法律文件解读报告
日期: " ++ timestamp ++ "
文件名: " ++ match doc_name with Some n => n | None => "未知文件" end ++ "
问题: " ++ doc_query ++ "

解读结果:
" ++ str w answer ++ "

法律参考:
" ++ String.concat Str.nl references ++ "
")
  | _, _ => None
  end.

Definition case_report (w : world)
  (timestamp legal_domain case_details case_query : string) (result : value)
  : option string :=
  match get result "answer" (PStr ""), step_lines result,
        reference_lines result with
  | Some answer, Some steps, Some references =>
      Some ("案件研究报告
日期: " ++ timestamp ++ "
法律领域: " ++ legal_domain ++ "
案件情况: " ++ case_details ++ "
咨询问题: " ++ case_query ++ "

案件分析:
" ++ str w answer ++ "

建议步骤:
" ++ String.concat Str.nl steps ++ "

法律参考:
" ++ String.concat Str.nl references ++ "
")
  | _, _, _ => None
  end.

End Main.

(** ** Concrete runs *)

Module Scenario.
Import Py Run.

(** A runtime without PyPDF2 and python-docx, the reference decoder for
    [json.loads], and a chain that answers every request with [reply].
    The files of the scenarios are ASCII; [repr] is Python's for floats
    written as Python prints them and for texts without quotes, backslashes
    and unprintable characters. *)
Definition ascii_text (b : list Byte.byte) : outcome string :=
  if forallb (fun x => (Byte.to_nat x <? 128)%nat) b
  then Returned (string_of_list_byte b)
  else Raised (Exception "'utf-8' codec can't decode the file").

Fixpoint repr (v : value) : string :=
  match v with
  | PNone => "None"
  | PBool true => "True"
  | PBool false => "False"
  | PInt z => DecimalString.NilZero.string_of_int (Z.to_int z)
  | PFloat literal => literal
  | PStr s => "'" ++ s ++ "'"
  | PList l => "[" ++ String.concat ", " (map repr l) ++ "]"
  | PDict d =>
      "{" ++ String.concat ", "
               (map (fun kv => match kv with
                               | (k, x) => "'" ++ k ++ "': " ++ repr x
                               end) d)
          ++ "}"
  end.

Definition world_of (secret : outcome string)
  (environ : outcome (list (string * string))) (reply : outcome string)
  : world :=
  {| secrets_API_KEY := secret;
     dotenv_environ := environ;
     chain_run := fun _ => reply;
     json_loads := JSON.loads;
     str_of_other := repr;
     PDF_SUPPORT := false;
     DOCX_SUPPORT := false;
     pdf_page_texts := fun _ => Raised (Exception "PyPDF2 is not installed");
     docx_paragraph_texts :=
       fun _ => Raised (Exception "python-docx is not installed");
     decode_utf8 := ascii_text |}.

Definition start : machine :=
  {| session := Main.init_session_state;
     page := [];
     stdout := [];
     requests := [] |}.

Definition no_secret : outcome string :=
  Raised (Exception "'st.secrets has no key `API_KEY`.'").

(** A case-strategy result, and the times and texts of a consultation. *)
Definition strategy : value :=
  PDict [("answer", PStr "可以申请劳动仲裁。");
         ("steps", PList [PStr "收集证据"; PStr "申请仲裁"]);
         ("references", PList [PStr "《劳动合同法》第48条"])].

Definition clock : string := "2024-05-06 10:20:30".

(** A reply in plain prose. *)
Definition prose : string :=
  "根据《劳动合同法》第21条，试用期内不得随意辞退。".

(** A configured key and a chain that answers [reply]. *)
Definition answering (reply : string) : world :=
  world_of (Returned "sk-test") (Returned []) (Returned reply).

End Scenario.

(** ** The vocabulary of the statements *)

Module Spec.
Import Py Run.

(** The questions of the default domain. *)
Definition general_questions : list string := [
  "如何查询某项法律法规的最新版本？";
  "我需要法律援助，应该如何申请？";
  "什么情况下需要公证？"
].

(** The base URL the resolver falls back on when none is configured. *)
Definition default_api_base : string := "https://twapi.openai-hk.com/v1".

(** The environment fallback finds no key: importing or loading [dotenv]
    raises, or [OPENAI_API_KEY] is unset or empty. *)
Definition no_environment_key (w : world) : Prop :=
  match dotenv_environ w with
  | Raised _ => True
  | Returned environ => truthy (lookup "OPENAI_API_KEY" environ) = false
  end.

(** A result with an answer that is a text. *)
Definition has_answer (v : value) : Prop :=
  exists d a, v = PDict d /\ lookup "answer" d = Some (PStr a).

(** The texts a result holds under [field]: those of its list, or none
    when the field is absent. *)
Definition texts_under (reply : list (string * value)) (field : string)
  (l : list string) : Prop :=
  (lookup field reply = None /\ l = [])
  \/ lookup field reply = Some (PList (map PStr l)).

(** The answer as the reports print it. *)
Definition answer_text (w : world) (reply : list (string * value)) : string :=
  str w match lookup "answer" reply with Some v => v | None => PStr "" end.

Definition reference_block (references : list string) : string :=
  String.concat Str.nl (map (append "- ") references).

Definition step_block (steps : list string) : string :=
  String.concat Str.nl
    (map (fun p => Str.of_nat (fst p + 1) ++ ". " ++ snd p)
       (enumerate 0 steps)).

(** The reply shapes: a field is a text or a sequence. *)
Inductive field_kind : Type :=
| Text
| Sequence.

Definition response_shape (c : Main.consult_type)
  : list (string * field_kind) :=
  match c with
  | Main.BasicInfo | Main.DocumentInterpretation =>
      [("answer", Text); ("references", Sequence)]
  | Main.CaseStrategy =>
      [("answer", Text); ("steps", Sequence); ("references", Sequence)]
  end.

Definition kind_of (v : value) : option field_kind :=
  match v with
  | PStr _ => Some Text
  | PList _ => Some Sequence
  | _ => None
  end.

Definition shape_of (d : list (string * value))
  : list (string * option field_kind) :=
  map (fun kv => (fst kv, kind_of (snd kv))) d.

(** The reply the prompt shows for each consultation type. *)
Definition response_example (c : Main.consult_type) : string :=
  match c with
  | Main.BasicInfo => Str.text
"{`answer`: `详细的法律解释和信息`, `references`: [`相关法律条款1`, `相关法律条款2`]}"
  | Main.DocumentInterpretation => Str.text
"{`answer`: `对文件的解释和分析`, `references`: [`相关法律依据1`, `相关法律依据2`]}"
  | Main.CaseStrategy => Str.text
"{`answer`: `对案件的分析`, `steps`: [`建议步骤1`, `建议步骤2`], `references`: [`相关法律案例1`, `相关法律案例2`]}"
  end.

End Spec.

(** ** base64

  [base64.b64encode] of Python's library: three bytes give four digits of
  the standard alphabet, and the last group is padded with [=].
  [b64decode] is its inverse, used to say what a link carries. *)

Module Base64.

Definition alphabet : string :=
  "ABCDEFGHIJKLMNOPQRSTUVWXYZabcdefghijklmnopqrstuvwxyz0123456789+/".

Definition pad : ascii := "="%char.

Definition digit (n : N) : ascii :=
  match String.get (N.to_nat n) alphabet with
  | Some c => c
  | None => pad
  end.

Fixpoint b64encode (s : string) : string :=
  match s with
  | "" => ""
  | String a "" =>
      let x := N_of_ascii a in
      String (digit (x / 4)) (String (digit (x mod 4 * 16))
        (String pad (String pad "")))
  | String a (String b "") =>
      let x := N_of_ascii a in
      let y := N_of_ascii b in
      String (digit (x / 4)) (String (digit (x mod 4 * 16 + y / 16))
        (String (digit (y mod 16 * 4)) (String pad "")))
  | String a (String b (String c r)) =>
      let x := N_of_ascii a in
      let y := N_of_ascii b in
      let z := N_of_ascii c in
      String (digit (x / 4)) (String (digit (x mod 4 * 16 + y / 16))
        (String (digit (y mod 16 * 4 + z / 64)) (String (digit (z mod 64))
          (b64encode r))))
  end%N.

Definition value_of (c : ascii) : option N :=
  let n := N_of_ascii c in
  if ((65 <=? n) && (n <=? 90))%N then Some (n - 65)%N
  else if ((97 <=? n) && (n <=? 122))%N then Some (n - 71)%N
  else if ((48 <=? n) && (n <=? 57))%N then Some (n + 4)%N
  else if (n =? 43)%N then Some 62%N
  else if (n =? 47)%N then Some 63%N
  else None.

Definition bytes1 (p q : N) : string :=
  String (ascii_of_N (p * 4 + q / 16)) "".

Definition bytes2 (p q r : N) : string :=
  String (ascii_of_N (p * 4 + q / 16))
    (String (ascii_of_N (q mod 16 * 16 + r / 4)) "").

Definition bytes3 (p q r t : N) : string :=
  String (ascii_of_N (p * 4 + q / 16))
    (String (ascii_of_N (q mod 16 * 16 + r / 4))
      (String (ascii_of_N (r mod 4 * 64 + t)) "")).

Fixpoint b64decode (s : string) : option string :=
  match s with
  | "" => Some ""
  | String c1 (String c2 (String c3 (String c4 r))) =>
      match value_of c1, value_of c2 with
      | Some p, Some q =>
          if Ascii.eqb c3 pad then
            if Ascii.eqb c4 pad && (r =? "") then Some (bytes1 p q) else None
          else
            match value_of c3 with
            | None => None
            | Some u =>
                if Ascii.eqb c4 pad then
                  if r =? "" then Some (bytes2 p q u) else None
                else
                  match value_of c4, b64decode r with
                  | Some t, Some rest => Some (bytes3 p q u t ++ rest)
                  | _, _ => None
                  end
            end
      | _, _ => None
      end
  | _ => None
  end.

End Base64.

(** ** main.py, the page around the pipeline *)

Module Page.
Import Py Run.
Local Open Scope prog_scope.

(** What the page needs of Python's built-ins beyond [world]:
    [str.lower], and the truth value of a float given by its literal. *)
Record builtins : Type := {
  str_lower : string -> string;
  float_bool : string -> bool
}.

(** [name.split(".")[-1]]: what follows the last dot, the whole name when
    it has none. *)
Fixpoint last_component (acc s : string) : string :=
  match s with
  | "" => acc
  | String c r =>
      if Ascii.eqb c "."%char then last_component "" r
      else last_component (acc ++ String c "") r
  end.

Definition file_type_of (py : builtins) (name : string) : string :=
  str_lower py (last_component "" name).

(** [doc_content[:1000] + ("..." if len(doc_content) > 1000 else "")],
    counted in characters. *)
Definition preview (doc_content : string) : string :=
  let cs := Str.chars doc_content in
  String.concat "" (firstn 1000 cs)
  ++ (if (1000 <? List.length cs)%nat then "..." else "").

(** The second tab when a file is in the uploader: the file is read, and
    either kept in the session and previewed, or refused.  The value is the
    preview put in the expander, if any. *)
Definition file_uploaded (py : builtins) (w : world) (name : string)
  (doc_file : list Byte.byte) : M (option string) :=
  doc_content <-
    Main.display_document_content w doc_file (file_type_of py name) ;;
  match doc_content with
  | Some content =>
      if content =? "" then
        show (st_error "无法读取文件内容，请检查文件格式") ;; ret None
      else
        s <- get_session ;;
        put_session {| chat_history := chat_history s;
                       doc_content := Some content;
                       consultation_results := consultation_results s;
                       legal_domain := legal_domain s |} ;;
        ret (Some (preview content))
  | None =>
      show (st_error "无法读取文件内容，请检查文件格式") ;; ret None
  end.



(** [l.index(x)]; [None] when it raises [ValueError]. *)
Fixpoint list_index (x : string) (l : list string) : option nat :=
  match l with
  | [] => None
  | y :: r =>
      if x =? y then Some 0
      else match list_index x r with
           | Some i => Some (S i)
           | None => None
           end
  end.

(** The domain part of the sidebar: the select box opens at the session's
    domain, [selected] is the option it returns, and the session follows
    it.  The value is the position the box opened at and the sample
    questions shown; [None] when a lookup raises. *)
Definition sidebar (selected : string) (s : session_state)
  : option (session_state * nat * list string) :=
  match list_index (legal_domain s) Utils.get_legal_domains with
  | None => None
  | Some index =>
      let s' :=
        if negb (selected =? legal_domain s) then
          {| chat_history := chat_history s;
             doc_content := doc_content s;
             consultation_results := consultation_results s;
             legal_domain := selected |}
        else s in
      match Utils.get_sample_questions selected with
      | Returned sample_questions => Some (s', index, sample_questions)
      | Raised _ => None
      end
  end.

(** The key of a sample question's button. *)
Definition sample_key (q : string) : string := "sample_" ++ q.

(** No text occurs twice in the list. *)
Fixpoint distinct (l : list string) : bool :=
  match l with
  | [] => true
  | x :: r => negb (existsb (String.eqb x) r) && distinct r
  end.

(** [text.encode()] raises on a lone surrogate, whose three bytes start with
    237 followed by 160 or more. *)
Fixpoint encodable (s : string) : bool :=
  match s with
  | "" => true
  | String a r =>
      match r with
      | "" => true
      | String b _ =>
          if ((nat_of_ascii a =? 237) && (160 <=? nat_of_ascii b))%nat
          then false
          else encodable r
      end
  end.

Definition get_download_link (text filename label : string)
  : option string :=
  if encodable text then
    let b64 := Base64.b64encode text in
    Some (Str.text "<a href=`data:file/txt;base64," ++ b64
            ++ Str.text "` download=`" ++ filename ++ Str.text "`>📄 "
            ++ label ++ "</a>")
  else None.

(** What a tab or the history section puts on the page; [markdown] holds
    the argument as it is passed. *)
Inductive widget : Type :=
| markdown (body : value)
| html (body : string)
| expander (label : string) (expanded : bool) (body : list widget).

(** [bool(v)] *)
Definition bool_of (py : builtins) (v : value) : bool :=
  match v with
  | PNone => false
  | PBool b => b
  | PInt z => negb (z =? 0)%Z
  | PFloat literal => float_bool py literal
  | PStr s => negb (s =? "")
  | PList l => match l with [] => false | _ :: _ => true end
  | PDict d => match d with [] => false | _ :: _ => true end
  end.

(** [key in d and d[key]] *)
Definition present (py : builtins) (key : string) (d : list (string * value))
  : bool :=
  match lookup key d with
  | Some v => bool_of py v
  | None => false
  end.

(** [for ref in d["references"]: st.markdown(f"- {ref}")] *)
Definition reference_items (w : world) (d : list (string * value))
  : option (list widget) :=
  match lookup "references" d with
  | None => None
  | Some references =>
      match iter references with
      | None => None
      | Some l => Some (map (fun ref => markdown (PStr ("- " ++ str w ref))) l)
      end
  end.

(** [for i, step in enumerate(d["steps"], 1): st.markdown(f"{i}. {step}")] *)
Definition step_items (w : world) (d : list (string * value))
  : option (list widget) :=
  match lookup "steps" d with
  | None => None
  | Some steps =>
      match iter steps with
      | None => None
      | Some l =>
          Some (map (fun p => markdown (PStr (Str.of_nat (fst p) ++ ". "
                                               ++ str w (snd p))))
                  (enumerate 1 l))
      end
  end.

(** The references of a tab, in their expander, when there are any. *)
Definition reference_expander (py : builtins) (w : world)
  (d : list (string * value)) : option (list widget) :=
  if present py "references" d then
    match reference_items w d with
    | Some items => Some [expander "法律参考" true items]
    | None => None
    end
  else Some [].

(** The steps of the third tab, under their heading, when there are any. *)
Definition step_list (py : builtins) (w : world)
  (d : list (string * value)) : option (list widget) :=
  if present py "steps" d then
    match step_items w d with
    | Some items => Some (markdown (PStr "### 建议步骤") :: items)
    | None => None
    end
  else Some [].

(** What the first tab shows once the result is saved: the answer, the
    references and the link to the report.  [None] when it raises. *)
Definition basic_display (py : builtins) (w : world)
  (timestamp legal_domain query : string) (result : value)
  : option (list widget) :=
  match result with
  | PDict d =>
      let answer := match lookup "answer" d with
                    | Some v => v
                    | None => PStr ""
                    end in
      match reference_expander py w d,
            Main.basic_report w timestamp legal_domain query result with
      | Some references, Some report =>
          match get_download_link report "法律咨询报告.txt" "下载分析报告" with
          | Some link =>
              Some ([markdown (PStr "### 法律建议"); markdown answer]
                      ++ references ++ [html link])%list
          | None => None
          end
      | _, _ => None
      end
  | _ => None
  end.

Definition document_display (py : builtins) (w : world) (timestamp : string)
  (doc_name : option string) (doc_query : string) (result : value)
  : option (list widget) :=
  match result with
  | PDict d =>
      let answer := match lookup "answer" d with
                    | Some v => v
                    | None => PStr ""
                    end in
      match reference_expander py w d,
            Main.document_report w timestamp doc_name doc_query result with
      | Some references, Some report =>
          match get_download_link report "法律文件解读报告.txt"
                  "下载分析报告" with
          | Some link =>
              Some ([markdown (PStr "### 文件解读"); markdown answer]
                      ++ references ++ [html link])%list
          | None => None
          end
      | _, _ => None
      end
  | _ => None
  end.

Definition case_display (py : builtins) (w : world)
  (timestamp legal_domain case_details case_query : string) (result : value)
  : option (list widget) :=
  match result with
  | PDict d =>
      let answer := match lookup "answer" d with
                    | Some v => v
                    | None => PStr ""
                    end in
      match step_list py w d, reference_expander py w d,
            Main.case_report w timestamp legal_domain case_details case_query
              result with
      | Some steps, Some references, Some report =>
          match get_download_link report "案件研究报告.txt" "下载分析报告" with
          | Some link =>
              Some ([markdown (PStr "### 案件分析"); markdown answer]
                      ++ steps ++ references ++ [html link])%list
          | None => None
          end
      | _, _, _ => None
      end
  | _ => None
  end.

(** One item of the history section, in its expander; [i] is its place,
    from 0. *)
Definition history_entry (py : builtins) (w : world) (i : nat)
  (item : history_item) : option widget :=
  let document :=
    match item_document item with
    | Some name =>
        if item_type item =? "法律文件解读"
        then [markdown (PStr ("**文件**: " ++ name))] else []
    | None => []
    end in
  let case_details :=
    match item_case_details item with
    | Some details =>
        if item_type item =? "案件研究与策略"
        then [markdown (PStr ("**案件情况**: " ++ details))] else []
    | None => []
    end in
  match item_result item with
  | PDict d =>
      let answer := match lookup "answer" d with
                    | Some v => v
                    | None => PStr ""
                    end in
      let steps :=
        if present py "steps" d then
          match step_items w d with
          | Some items => Some (markdown (PStr "**建议步骤**:") :: items)
          | None => None
          end
        else Some [] in
      let references :=
        if present py "references" d then
          match reference_items w d with
          | Some items => Some (markdown (PStr "**法律参考**:") :: items)
          | None => None
          end
        else Some [] in
      match steps, references with
      | Some steps, Some references =>
          Some (expander (item_timestamp item ++ " - " ++ item_type item)
                  (i =? 0)%nat
                  ([markdown (PStr ("**问题**: " ++ item_query item))]
                     ++ document ++ case_details
                     ++ [markdown (PStr "**回答**:"); markdown answer]
                     ++ steps ++ references)%list)
      | _, _ => None
      end
  | _ => None
  end.

(** The history section; [None] when an item makes it raise. *)
Definition history_section (py : builtins) (w : world) (s : session_state)
  : option (list widget) :=
  match chat_history s with
  | [] => Some []
  | _ :: _ =>
      match sequence
              (map (fun p => history_entry py w (fst p) (snd p))
                 (enumerate 0 (rev (slice_from (-5) (chat_history s))))) with
      | Some entries =>
          Some (html (Str.text "<p class=`sub-header`>咨询历史记录</p>")
                  :: entries)
      | None => None
      end
  end.

End Page.

(** ** More concrete runs *)

Module Cases.
Import Py Run.

(** [str.lower] on ASCII names, and the truth value of a float literal
    within the range of floats: one of its digits before the exponent is not
    zero, or it is NaN or an infinity. *)
Definition lower_char (c : ascii) : ascii :=
  let n := nat_of_ascii c in
  if ((65 <=? n) && (n <=? 90))%nat then ascii_of_nat (n + 32) else c.

Fixpoint ascii_lower (s : string) : string :=
  match s with
  | "" => ""
  | String c r => String (lower_char c) (ascii_lower r)
  end.

Fixpoint nonzero_literal (s : string) : bool :=
  match s with
  | "" => false
  | String c r =>
      let n := nat_of_ascii c in
      if ((n =? 101) || (n =? 69))%nat then false
      else if ((49 <=? n) && (n <=? 57))%nat then true
      else if ((n =? 78) || (n =? 73))%nat then true
      else nonzero_literal r
  end.

Definition python : Page.builtins :=
  {| Page.str_lower := ascii_lower; Page.float_bool := nonzero_literal |}.

(** A runtime with both document libraries, whose readers find [texts] in
    every file, as pages or as paragraphs. *)
Definition reading (texts : list string) : world :=
  {| secrets_API_KEY := Returned "sk-test";
     dotenv_environ := Returned [];
     chain_run := fun _ => Returned "{}";
     json_loads := JSON.loads;
     str_of_other := Scenario.repr;
     PDF_SUPPORT := true;
     DOCX_SUPPORT := true;
     pdf_page_texts := fun _ => Returned texts;
     docx_paragraph_texts := fun _ => Returned texts;
     decode_utf8 := Scenario.ascii_text |}.

(** A configured key and a chain that fails with [message]. *)
Definition failing (message : string) : world :=
  Scenario.world_of (Returned "sk-test") (Returned [])
    (Raised (Exception message)).

(** [json.loads] under the interpreter's recursion limit.  The scanner goes
    one level down at every opening bracket, and where the levels exceed the
    limit (1000 frames unless [sys.setrecursionlimit] changed it) it raises
    RecursionError instead of reading on.  A text that opens with that many
    brackets, whitespace apart, therefore never gets a JSONDecodeError,
    whatever follows.  On the other texts this is the reference decoder: the
    frames the caller has in use, which make the interpreter give up some
    levels earlier, deep runs of objects, and the limit on the digits of an
    integer are not followed. *)
Fixpoint opening_brackets (s : string) : N :=
  match s with
  | "" => 0
  | String c r =>
      if JSON.is_ws c then opening_brackets r
      else if Ascii.eqb c "["%char then N.succ (opening_brackets r)
      else 0
  end.

Definition recursion_limit : N := 1000.

Definition loads_within_limit (s : string) : JSON.loads_outcome :=
  if (recursion_limit <=? opening_brackets s)%N then
    JSON.Crashed
      (Exception
         "maximum recursion depth exceeded while decoding a JSON array from a unicode string")
  else JSON.loads s.

(** A configured key, a chain that answers [reply], and that decoder. *)
Definition limited (reply : string) : world :=
  {| secrets_API_KEY := Returned "sk-test";
     dotenv_environ := Returned [];
     chain_run := fun _ => Returned reply;
     json_loads := loads_within_limit;
     str_of_other := Scenario.repr;
     PDF_SUPPORT := false;
     DOCX_SUPPORT := false;
     pdf_page_texts := fun _ => Raised (Exception "PyPDF2 is not installed");
     docx_paragraph_texts :=
       fun _ => Raised (Exception "python-docx is not installed");
     decode_utf8 := Scenario.ascii_text |}.

(** A reply that is no JSON text: two thousand opening brackets, then
    prose. *)
Definition deep_reply : string :=
  N.iter 2000 (String "["%char) (" " ++ Scenario.prose).

(** A session that holds an uploaded contract. *)
Definition with_document : machine :=
  {| session := {| chat_history := [];
                   doc_content := Some "甲方应于每月五日前支付工资。";
                   consultation_results := [];
                   legal_domain := "劳动法" |};
     page := [];
     stdout := [];
     requests := [] |}.

(** A history whose older item holds a result that is a list. *)
Definition broken : session_state :=
  {| chat_history :=
       [Main.basic_item "加班费如何计算？" (PList []) Scenario.clock;
        Main.basic_item "加班费如何计算？" Scenario.strategy Scenario.clock];
     doc_content := None;
     consultation_results := [];
     legal_domain := "劳动法" |}.

End Cases.

Import Py Run.

(** * Properties *)

(** ** Text *)

Section Text.

Lemma append_nil_r (s : string) : s ++ "" = s.
Proof. induction s as [|c s IH]; simpl; [reflexivity | now rewrite IH]. Qed.

Lemma append_assoc (a b c : string) : (a ++ b) ++ c = a ++ b ++ c.
Proof. induction a as [|x a IH]; simpl; [reflexivity | now rewrite IH]. Qed.

Lemma length_append (a b : string) :
  String.length (a ++ b) = String.length a + String.length b.
Proof. induction a as [|x a IH]; simpl; [reflexivity | now rewrite IH]. Qed.

Lemma prefixb_spec (p s : string) :
  Str.prefixb p s = true <-> exists post, s = p ++ post.
Proof.
  revert s; induction p as [|a p IH]; intros s; simpl.
  - split; [intros _; now exists s | reflexivity].
  - destruct s as [|b s].
    + split; [discriminate | intros [post H]; discriminate].
    + rewrite andb_true_iff, Ascii.eqb_eq, IH. split.
      * intros [-> [post ->]]. now exists post.
      * intros [post H]. injection H as -> ->. split; [reflexivity | now exists post].
Qed.

Lemma drop_append (p s : string) : Str.drop (String.length p) (p ++ s) = s.
Proof. induction p as [|a p IH]; simpl; [now destruct s | exact IH]. Qed.

Lemma drop_append_le (n : nat) (u s : string) :
  n <= String.length u -> Str.drop n (u ++ s) = Str.drop n u ++ s.
Proof.
  revert u; induction n as [|n IH]; intros u H.
  - now destruct u.
  - destruct u as [|a u]; simpl in *; [lia | apply IH; lia].
Qed.

Lemma occurs_here (sub post : string) : Str.occurs sub (sub ++ post).
Proof. now exists "", post. Qed.

Lemma occurs_append_r (sub a b : string) :
  Str.occurs sub b -> Str.occurs sub (a ++ b).
Proof.
  intros [pre [post ->]]. exists (a ++ pre), post. now rewrite append_assoc.
Qed.

Lemma occurs_append_l (sub a b : string) :
  Str.occurs sub a -> Str.occurs sub (a ++ b).
Proof.
  intros [pre [post ->]]. exists pre, (post ++ b).
  now rewrite !append_assoc.
Qed.

Lemma occursb_spec (sub s : string) :
  Str.occursb sub s = true <-> Str.occurs sub s.
Proof.
  induction s as [|c s IH].
  - simpl. rewrite orb_false_r, prefixb_spec. split.
    + intros [post ->]. apply occurs_here.
    + intros [pre [post H]]. destruct pre; [now exists post | discriminate].
  - cbn [Str.occursb]. rewrite orb_true_iff, prefixb_spec, IH. split.
    + intros [[post ->] | H]; [apply occurs_here |].
      now apply (occurs_append_r sub (String c "") s).
    + intros [pre [post H]]. destruct pre as [|a pre].
      * left. now exists post.
      * right. injection H as _ ->. now exists pre, post.
Qed.

Lemma after_sound (f s rest : string) :
  Str.after f s = Some rest -> exists pre, s = pre ++ f ++ rest.
Proof.
  induction s as [|c s IH]; cbn [Str.after];
    destruct (Str.prefixb f _) eqn:E.
  - intros [= <-]. apply prefixb_spec in E as [post ->].
    exists "". now rewrite drop_append.
  - discriminate.
  - intros [= <-]. apply prefixb_spec in E as [post ->].
    exists "". now rewrite drop_append.
  - intros H. destruct (IH H) as [pre ->]. now exists (String c pre).
Qed.

Lemma after_complete (f pre post : string) :
  exists x, Str.after f (pre ++ f ++ post) = Some (x ++ post).
Proof.
  induction pre as [|c pre IH].
  - exists "". simpl.
    assert (E : Str.prefixb f (f ++ post) = true)
      by (apply prefixb_spec; now exists post).
    destruct (f ++ post) eqn:D; cbn [Str.after]; rewrite E, <- D;
      now rewrite drop_append.
  - cbn [append Str.after].
    destruct (Str.prefixb f (String c (pre ++ f ++ post))) eqn:E.
    + exists (Str.drop (String.length f) (String c pre ++ f)).
      rewrite <- drop_append_le.
      * now rewrite append_assoc.
      * rewrite length_append. lia.
    + exact IH.
Qed.

Lemma in_order_suffix (fs : list string) (x s : string) :
  Str.in_order fs s -> Str.in_order fs (x ++ s).
Proof.
  destruct fs as [|f fs]; [trivial |].
  intros [pre [post [-> H]]]. exists (x ++ pre), post.
  now rewrite append_assoc.
Qed.

Lemma in_orderb_spec (fs : list string) (s : string) :
  Str.in_orderb fs s = true <-> Str.in_order fs s.
Proof.
  revert s; induction fs as [|f fs IH]; intros s; simpl.
  - tauto.
  - split.
    + destruct (Str.after f s) as [rest|] eqn:E; [|discriminate].
      intros H. apply after_sound in E as [pre ->].
      exists pre, rest. split; [reflexivity | now apply IH].
    + intros [pre [post [-> H]]].
      destruct (after_complete f pre post) as [x ->].
      apply IH. now apply in_order_suffix.
Qed.

Lemma in_order_cons (f : string) (fs : list string) (pre post : string) :
  Str.in_order fs post -> Str.in_order (f :: fs) (pre ++ f ++ post).
Proof. intros H. now exists pre, post. Qed.

End Text.

(** ** Dictionaries *)

Section Dictionaries.
Context {A : Type}.

Lemma lookup_In (k : string) (d : list (string * A)) (v : A) :
  lookup k d = Some v -> In (k, v) d.
Proof.
  induction d as [|[k' v'] d IH]; simpl; [discriminate |].
  destruct (String.eqb_spec k k') as [->|_].
  - intros [= ->]. now left.
  - intros H. right. now apply IH.
Qed.

Lemma lookup_None (k : string) (d : list (string * A)) :
  ~ In k (map fst d) -> lookup k d = None.
Proof.
  induction d as [|[k' v'] d IH]; simpl; [reflexivity |].
  intros H. destruct (String.eqb_spec k k') as [->|_].
  - exfalso. apply H. now left.
  - apply IH. intros I. apply H. now right.
Qed.

End Dictionaries.

(** ** The catalogue of sample questions *)

Section Catalogue.

Lemma sample_questions_not_empty (domain : string) (questions : list string) :
  lookup domain Utils.SAMPLE_QUESTIONS = Some questions -> questions <> [].
Proof.
  intros H. apply lookup_In in H.
  assert (F : Forall (fun kv : string * list string => snd kv <> [])
                Utils.SAMPLE_QUESTIONS)
    by (unfold Utils.SAMPLE_QUESTIONS; repeat constructor; discriminate).
  rewrite Forall_forall in F. exact (F _ H).
Qed.

(** C9. For a domain that is not a key of the catalogue, the empty string
    included, [get_sample_questions] returns the questions of the default
    domain "一般法律咨询"; for every domain it returns, and the list it
    returns is not empty. *)
Theorem get_sample_questions_default (domain : string) :
  lookup "一般法律咨询" Utils.SAMPLE_QUESTIONS = Some Spec.general_questions
  /\ (exists questions,
        Utils.get_sample_questions domain = Returned questions
        /\ questions <> [])
  /\ (~ In domain (map fst Utils.SAMPLE_QUESTIONS) ->
      Utils.get_sample_questions domain = Returned Spec.general_questions).
Proof.
  assert (D : lookup "一般法律咨询" Utils.SAMPLE_QUESTIONS
              = Some Spec.general_questions) by reflexivity.
  split; [exact D |]. unfold Utils.get_sample_questions. rewrite D. split.
  - destruct (lookup domain Utils.SAMPLE_QUESTIONS) as [questions|] eqn:E.
    + exists questions. split; [reflexivity |].
      now apply (sample_questions_not_empty domain).
    + exists Spec.general_questions. split; [reflexivity | discriminate].
  - intros H. now rewrite (lookup_None domain Utils.SAMPLE_QUESTIONS H).
Qed.

Lemma get_sample_questions_default_witness :
  ~ In "" (map fst Utils.SAMPLE_QUESTIONS)
  /\ Utils.get_sample_questions "" = Returned Spec.general_questions.
Proof.
  assert (N : ~ In "" (map fst Utils.SAMPLE_QUESTIONS))
    by (simpl; intuition discriminate).
  split; [exact N |].
  exact (proj2 (proj2 (get_sample_questions_default "")) N).
Defined.

End Catalogue.

(** ** The credential resolver *)

Section Credentials.

Lemma get_api_credentials_secret (w : world) (m : machine) (key : string) :
  secrets_API_KEY w = Returned key ->
  Utils.get_api_credentials w m
  = (Returned (Some key, Spec.default_api_base), m).
Proof.
  intros H. unfold Utils.get_api_credentials, try_except, bind, lift.
  now rewrite H.
Qed.

Lemma get_api_credentials_environ (w : world) (m : machine) (e : exn)
  (environ : list (string * string)) :
  secrets_API_KEY w = Raised e ->
  dotenv_environ w = Returned environ ->
  truthy (lookup "OPENAI_API_KEY" environ) = true ->
  Utils.get_api_credentials w m
  = (Returned (lookup "OPENAI_API_KEY" environ,
               Utils.getenv environ "OPENAI_API_BASE" Spec.default_api_base),
     m).
Proof.
  intros H1 H2 H3.
  unfold Utils.get_api_credentials, try_except, bind, lift, ret.
  now rewrite H1, H2, H3.
Qed.

Lemma get_api_credentials_none (w : world) (m : machine) (e : exn) :
  secrets_API_KEY w = Raised e ->
  Spec.no_environment_key w ->
  Utils.get_api_credentials w m
  = (Returned (None, "https://api.openai.com/v1"),
     {| session := session m;
        page := page m ++ [st_error ("获取API凭据时出错: " ++ str_of_exn e)];
        stdout := stdout m;
        requests := requests m |}).
Proof.
  intros H1 H2. unfold Spec.no_environment_key in H2.
  unfold Utils.get_api_credentials, try_except, bind, lift, ret, show.
  rewrite H1. destruct (dotenv_environ w) as [environ|e']; [|reflexivity].
  now rewrite H2.
Qed.

(** The resolver always returns, and touches nothing but the page. *)
Lemma get_api_credentials_returns (w : world) (m : machine) :
  exists credentials m',
    Utils.get_api_credentials w m = (Returned credentials, m')
    /\ session m' = session m /\ stdout m' = stdout m
    /\ requests m' = requests m.
Proof.
  destruct (secrets_API_KEY w) as [key|e] eqn:H1.
  - rewrite (get_api_credentials_secret w m key H1). now eexists _, _.
  - destruct (dotenv_environ w) as [environ|e'] eqn:H2.
    + destruct (truthy (lookup "OPENAI_API_KEY" environ)) eqn:H3.
      * rewrite (get_api_credentials_environ w m e environ H1 H2 H3).
        now eexists _, _.
      * rewrite (get_api_credentials_none w m e H1).
        -- now eexists _, _.
        -- unfold Spec.no_environment_key. now rewrite H2.
    + rewrite (get_api_credentials_none w m e H1).
      * now eexists _, _.
      * unfold Spec.no_environment_key. now rewrite H2.
Qed.

(** C10, as stated, fails: a successful resolution through the
    environment returns the base URL that [OPENAI_API_BASE] sets, not the
    default one. *)
Lemma get_api_credentials_base_override :
  Utils.get_api_credentials
    (Scenario.world_of Scenario.no_secret
       (Returned [("OPENAI_API_KEY", "sk-env");
                  ("OPENAI_API_BASE", "https://example.org/v1")])
       (Returned "{}"))
    Scenario.start
  = (Returned (Some "sk-env", "https://example.org/v1"), Scenario.start)
  /\ "https://example.org/v1" <> Spec.default_api_base.
Proof. split; [reflexivity | discriminate]. Qed.

(** C10, amended. When the secrets lookup raises and the environment
    fallback finds no key, [get_api_credentials] shows its error and returns
    [None] paired with "https://api.openai.com/v1", which differs from the
    default base URL "https://twapi.openai-hk.com/v1".  The two paths that
    find a key are the only other ones.  Whenever the secrets lookup returns,
    the resolver returns the secret with the default base URL, whatever the
    environment sets.  When the secrets lookup raises and the environment
    holds a non-empty [OPENAI_API_KEY], it returns that key with the value
    of [OPENAI_API_BASE] if the environment sets it, and with the default
    base URL only if it does not. *)
Theorem get_api_credentials_failure (w : world) (m : machine) (e : exn) :
  secrets_API_KEY w = Raised e ->
  Spec.no_environment_key w ->
  Utils.get_api_credentials w m
  = (Returned (None, "https://api.openai.com/v1"),
     {| session := session m;
        page := page m ++ [st_error ("获取API凭据时出错: " ++ str_of_exn e)];
        stdout := stdout m;
        requests := requests m |})
  /\ "https://api.openai.com/v1" <> Spec.default_api_base
  /\ (forall w' m' secret,
        secrets_API_KEY w' = Returned secret ->
        Utils.get_api_credentials w' m'
        = (Returned (Some secret, "https://twapi.openai-hk.com/v1"), m'))
  /\ (forall w' m' e' environ key,
        secrets_API_KEY w' = Raised e' ->
        dotenv_environ w' = Returned environ ->
        lookup "OPENAI_API_KEY" environ = Some key ->
        key <> "" ->
        Utils.get_api_credentials w' m'
        = (Returned
             (Some key,
              match lookup "OPENAI_API_BASE" environ with
              | Some base => base
              | None => "https://twapi.openai-hk.com/v1"
              end),
           m'))
  /\ (forall w',
        (exists secret, secrets_API_KEY w' = Returned secret)
        \/ (exists e' environ key,
              secrets_API_KEY w' = Raised e'
              /\ dotenv_environ w' = Returned environ
              /\ lookup "OPENAI_API_KEY" environ = Some key
              /\ key <> "")
        \/ (exists e', secrets_API_KEY w' = Raised e'
                       /\ Spec.no_environment_key w')).
Proof.
  intros H1 H2. split; [apply (get_api_credentials_none w m e H1 H2) |].
  split; [discriminate |]. clear. split; [| split].
  - intros w m secret H. apply (get_api_credentials_secret w m secret H).
  - intros w m e environ key H1 H2 H3 H4.
    assert (T : truthy (lookup "OPENAI_API_KEY" environ) = true).
    { rewrite H3. destruct key; [contradiction | reflexivity]. }
    rewrite (get_api_credentials_environ w m e environ H1 H2 T).
    now rewrite H3.
  - intros w. destruct (secrets_API_KEY w) as [secret|e]; [left; now eexists |].
    right. unfold Spec.no_environment_key.
    destruct (dotenv_environ w) as [environ|e'];
      [| right; exists e; now split].
    destruct (lookup "OPENAI_API_KEY" environ) as [key|] eqn:K;
      [| right; exists e; now split].
    destruct key as [|c key]; [right; exists e; now split |].
    left. exists e, environ, (String c key). now repeat split.
Qed.

Lemma get_api_credentials_failure_witness :
  secrets_API_KEY (Scenario.world_of Scenario.no_secret
                     (Returned [("OPENAI_API_BASE", "https://example.org/v1")])
                     (Returned "{}"))
  = Raised (Exception "'st.secrets has no key `API_KEY`.'")
  /\ Spec.no_environment_key
       (Scenario.world_of Scenario.no_secret
          (Returned [("OPENAI_API_BASE", "https://example.org/v1")])
          (Returned "{}"))
  /\ Utils.get_api_credentials
       (Scenario.world_of Scenario.no_secret
          (Returned [("OPENAI_API_BASE", "https://example.org/v1")])
          (Returned "{}"))
       Scenario.start
     = (Returned (None, "https://api.openai.com/v1"),
        {| session := session Scenario.start;
           page := [st_error
                      "获取API凭据时出错: 'st.secrets has no key `API_KEY`.'"];
           stdout := [];
           requests := [] |}).
Proof.
  split; [reflexivity |]. split; [reflexivity |].
  exact (proj1 (get_api_credentials_failure
                  (Scenario.world_of Scenario.no_secret
                     (Returned [("OPENAI_API_BASE", "https://example.org/v1")])
                     (Returned "{}"))
                  Scenario.start _ eq_refl eq_refl)).
Defined.

(** The two paths that find a key, with [OPENAI_API_BASE] set in the
    environment: the secrets path keeps the default base URL, the
    environment path takes the one that is set. *)
Example get_api_credentials_paths :
  let environ := [("OPENAI_API_KEY", "sk-env");
                  ("OPENAI_API_BASE", "https://example.org/v1")] in
  Utils.get_api_credentials
    (Scenario.world_of (Returned "sk-secret") (Returned environ)
       (Returned "{}")) Scenario.start
  = (Returned (Some "sk-secret", "https://twapi.openai-hk.com/v1"),
     Scenario.start)
  /\ Utils.get_api_credentials
       (Scenario.world_of Scenario.no_secret (Returned environ)
          (Returned "{}")) Scenario.start
     = (Returned (Some "sk-env", "https://example.org/v1"), Scenario.start)
  /\ Utils.get_api_credentials
       (Scenario.world_of Scenario.no_secret
          (Returned [("OPENAI_API_KEY", "sk-env")]) (Returned "{}"))
       Scenario.start
     = (Returned (Some "sk-env", "https://twapi.openai-hk.com/v1"),
        Scenario.start).
Proof. split; [reflexivity |]. split; reflexivity. Qed.

End Credentials.

(** ** The consultation history *)

Section History.

Lemma for_each_append_history (items : list history_item) (m : machine) :
  for_each Main.append_history items m
  = (Returned tt,
     {| session :=
          {| chat_history := chat_history (session m) ++ items;
             doc_content := doc_content (session m);
             consultation_results := consultation_results (session m);
             legal_domain := legal_domain (session m) |};
        page := page m;
        stdout := stdout m;
        requests := requests m |}).
Proof.
  revert m; induction items as [|item items IH]; intros [[h d c l] p o r].
  - simpl. unfold ret. now rewrite app_nil_r.
  - cbn [for_each]. unfold bind at 1.
    unfold Main.append_history, bind, get_session, put_session. cbn.
    rewrite IH. cbn. now rewrite <- app_assoc.
Qed.

(** The history section reads the session and leaves the machine as it
    was; what it goes through are the five last items, the latest first. *)
Lemma displayed_history_last_five (m : machine) :
  Main.displayed_history m
  = (Returned (firstn 5 (rev (chat_history (session m)))), m).
Proof.
  unfold Main.displayed_history, bind, get_session, ret.
  destruct (chat_history (session m)) as [|x h] eqn:E; [reflexivity |].
  rewrite <- E. clear E x h. f_equal. f_equal.
  rewrite firstn_rev. f_equal. unfold slice_from.
  replace (-5 <? 0)%Z with true by reflexivity. f_equal. lia.
Qed.

(** C6. After ten items are appended to an empty history, the history
    section goes through exactly the five last ones, the latest first, and
    leaves the stored list as it is; after the history is cleared it goes
    through none. *)
Theorem history_recent_reversed
  (e1 e2 e3 e4 e5 e6 e7 e8 e9 e10 : history_item)
  (d : option string) (c : list value) (l : string)
  (p : list element) (o : list string) (r : list request) :
  let m0 := {| session := {| chat_history := []; doc_content := d;
                             consultation_results := c;
                             legal_domain := l |};
               page := p; stdout := o; requests := r |} in
  exists m1 m2,
    for_each Main.append_history [e1; e2; e3; e4; e5; e6; e7; e8; e9; e10] m0
    = (Returned tt, m1)
    /\ Main.displayed_history m1 = (Returned [e10; e9; e8; e7; e6], m1)
    /\ chat_history (session m1) = [e1; e2; e3; e4; e5; e6; e7; e8; e9; e10]
    /\ Main.clear_history m1 = (Returned tt, m2)
    /\ Main.displayed_history m2 = (Returned [], m2)
    /\ chat_history (session m2) = [].
Proof.
  intros m0. eexists _, _. split; [apply for_each_append_history |].
  split; [reflexivity |]. split; [reflexivity |].
  split; [reflexivity |]. split; reflexivity.
Qed.

End History.

(** ** The document reader *)

Section Documents.

(** C8, as stated, fails: for a type it does not know, the reader raises
    no error of any type; it returns [None] as its value and shows
    nothing. *)
Lemma display_document_content_no_typed_error :
  Main.display_document_content
    (Scenario.world_of (Returned "sk") (Returned []) (Returned "{}"))
    [Byte.x25; Byte.x50; Byte.x44; Byte.x46] "rtf" Scenario.start
  = (Returned None, Scenario.start)
  /\ ~ (exists e : exn,
          fst (Main.display_document_content
                 (Scenario.world_of (Returned "sk") (Returned [])
                    (Returned "{}"))
                 [Byte.x25; Byte.x50; Byte.x44; Byte.x46] "rtf"
                 Scenario.start)
          = Raised e).
Proof. split; [reflexivity | intros [e H]; discriminate H]. Qed.

(** C8, amended. For every content, [display_document_content] called
    with a type other than pdf, docx and txt returns [None], the value it
    returns for every failure, and shows nothing; it never returns a
    text. *)
Theorem display_document_content_unknown_type
  (w : world) (doc_file : list Byte.byte) (file_type : string) (m : machine) :
  file_type <> "pdf" -> file_type <> "docx" -> file_type <> "txt" ->
  Main.display_document_content w doc_file file_type m = (Returned None, m).
Proof.
  intros H1 H2 H3. unfold Main.display_document_content, try_except.
  apply String.eqb_neq in H1, H2, H3. now rewrite H1, H2, H3.
Qed.

Lemma display_document_content_unknown_type_witness :
  "rtf" <> "pdf" /\ "rtf" <> "docx" /\ "rtf" <> "txt"
  /\ Main.display_document_content
       (Scenario.world_of (Returned "sk") (Returned []) (Returned "{}"))
       [] "rtf" Scenario.start
     = (Returned None, Scenario.start).
Proof.
  assert (H1 : "rtf" <> "pdf") by discriminate.
  assert (H2 : "rtf" <> "docx") by discriminate.
  assert (H3 : "rtf" <> "txt") by discriminate.
  split; [exact H1 |]. split; [exact H2 |]. split; [exact H3 |].
  exact (display_document_content_unknown_type _ [] "rtf" _ H1 H2 H3).
Defined.

End Documents.

(** ** The prompt *)

Section Prompt.

(** The template has three fields, in the order consult_type,
    legal_domain, query; [compose] fills them with its arguments as they
    are. *)
Lemma compose_pieces :
  exists a b c d : string,
    (forall query consult_type legal_domain,
        Utils.compose query consult_type legal_domain
        = Some (a ++ "当前咨询类型: " ++ consult_type ++ Str.nl ++ b
                  ++ legal_domain ++ c ++ query ++ d))
    /\ (forall k,
          Str.occursb ("对于" ++ Main.label k ++ ":" ++ Str.nl
                         ++ Spec.response_example k ++ Str.nl) c = true).
Proof.
  let ps := eval vm_compute in (Format.outside Utils.PROMPT_TEMPLATE) in
  match ps with
  | Some [Format.Lit ?a; Format.Field _; Format.Lit ?b; Format.Field _;
          Format.Lit ?c; Format.Field _; Format.Lit ?d] =>
      let n := constr:(String.length a - String.length "当前咨询类型: ") in
      let a' := eval vm_compute in (String.substring 0 n a) in
      let b' := eval vm_compute in (Str.drop 1 b) in
      exists a', b', c, d
  end.
  split; [intros; vm_compute; reflexivity |].
  intros []; vm_compute; reflexivity.
Qed.

(** C4. For every query, consultation type and legal domain, the composed
    prompt contains the query and the legal domain as they are, states the
    consultation type, and shows under that type's heading a reply of that
    type's shape: answer and references for basic information and document
    interpretation; answer, steps and references for case strategy. *)
Theorem compose_contains (query legal_domain : string)
  (k : Main.consult_type) :
  exists text,
    Utils.compose query (Main.label k) legal_domain = Some text
    /\ Str.occurs query text
    /\ Str.occurs legal_domain text
    /\ Str.occurs ("当前咨询类型: " ++ Main.label k ++ Str.nl) text
    /\ Str.occurs ("对于" ++ Main.label k ++ ":" ++ Str.nl
                     ++ Spec.response_example k ++ Str.nl) text
    /\ exists reply,
         JSON.loads (Spec.response_example k) = JSON.Decoded (PDict reply)
         /\ Spec.shape_of reply
            = map (fun f => (fst f, Some (snd f))) (Spec.response_shape k).
Proof.
  destruct compose_pieces as [a [b [c [d [E Hc]]]]].
  eexists. split; [apply E |].
  split; [do 7 apply occurs_append_r; apply occurs_here |].
  split; [do 5 apply occurs_append_r; apply occurs_here |].
  split; [| split].
  - eexists a, _. now rewrite !append_assoc.
  - do 6 apply occurs_append_r. apply occurs_append_l.
    apply occursb_spec, Hc.
  - destruct k; eexists; (split; [vm_compute; reflexivity | reflexivity]).
Qed.

End Prompt.

(** ** The agent *)

Section Agent.

Lemma compose_total (query consult_type legal_domain : string) :
  exists text, Utils.compose query consult_type legal_domain = Some text.
Proof.
  destruct compose_pieces as [a [b [c [d [E _]]]]]. eexists. apply E.
Qed.

Lemma legal_agent_no_key (w : world) (query consult_type legal_domain : string)
  (m m1 : machine) (key : option string) (base : string) :
  Utils.get_api_credentials w m = (Returned (key, base), m1) ->
  truthy key = false ->
  Utils.legal_agent w query consult_type legal_domain m
  = (Returned
       (Utils.answer_with
          "错误：未找到API密钥。请在Streamlit Secrets中设置API_KEY。"
          "请在Streamlit设置中添加API_KEY"),
     m1).
Proof.
  intros H1 H2. unfold Utils.legal_agent, try_except at 1, bind.
  now rewrite H1, H2.
Qed.

(** With a key, the agent starts one chain and turns whatever comes back
    into a result. *)
Lemma legal_agent_with_key (w : world)
  (query consult_type legal_domain text : string)
  (m m1 : machine) (key : option string) (base : string) :
  Utils.get_api_credentials w m = (Returned (key, base), m1) ->
  truthy key = true ->
  Utils.compose query consult_type legal_domain = Some text ->
  Utils.legal_agent w query consult_type legal_domain m
  = (Returned
       match chain_run w (Utils.chat_request key base text) with
       | Returned response =>
           match json_loads w response with
           | JSON.Decoded v => v
           | JSON.NotJSON => Utils.answer_with response "无法识别格式化参考"
           | JSON.Crashed e =>
               Utils.answer_with ("抱歉，无法连接到AI服务：" ++ str_of_exn e)
                 "请检查您的API密钥和网络连接"
           end
       | Raised e =>
           Utils.answer_with ("抱歉，无法连接到AI服务：" ++ str_of_exn e)
             "请检查您的API密钥和网络连接"
       end,
     snd (send (Utils.chat_request key base text) m1)).
Proof.
  intros H1 H2 H3.
  unfold Utils.legal_agent, Utils.parse_response, try_except, bind, lift,
    ret, raise.
  rewrite H1, H2, H3. cbn.
  destruct (chain_run w _) as [response|e]; [|reflexivity].
  now destruct (json_loads w response).
Qed.

(** The handler of [json.JSONDecodeError] (utils.py 191-196).  For a reply
    on which [json.loads] raises that error the parsing step does not fail:
    it returns the result whose answer is the reply as it is and whose
    references are the one text "无法识别格式化参考", and so does
    [legal_agent] when the chain answers with that reply. *)
Theorem parse_response_not_json (w : world) (response : string) (m : machine) :
  json_loads w response = JSON.NotJSON ->
  Utils.parse_response w response m
  = (Returned (PDict [("answer", PStr response);
                      ("references", PList [PStr "无法识别格式化参考"])]),
     m)
  /\ (forall query consult_type legal_domain text key base m1,
        Utils.get_api_credentials w m = (Returned (key, base), m1) ->
        truthy key = true ->
        Utils.compose query consult_type legal_domain = Some text ->
        chain_run w (Utils.chat_request key base text) = Returned response ->
        fst (Utils.legal_agent w query consult_type legal_domain m)
        = Returned (PDict [("answer", PStr response);
                           ("references",
                            PList [PStr "无法识别格式化参考"])])).
Proof.
  intros H. split.
  - unfold Utils.parse_response. now rewrite H.
  - intros query consult_type legal_domain text key base m1 H1 H2 H3 H4.
    rewrite (legal_agent_with_key w query consult_type legal_domain text
               m m1 key base H1 H2 H3).
    now rewrite H4, H.
Qed.

Lemma parse_response_not_json_witness :
  json_loads (Scenario.answering Scenario.prose) Scenario.prose = JSON.NotJSON
  /\ Utils.parse_response (Scenario.answering Scenario.prose) Scenario.prose
       Scenario.start
     = (Returned (PDict [("answer", PStr Scenario.prose);
                         ("references", PList [PStr "无法识别格式化参考"])]),
        Scenario.start)
  /\ fst (Utils.legal_agent (Scenario.answering Scenario.prose)
            "试用期被辞退是否有赔偿？" "基本法律信息" "劳动法" Scenario.start)
     = Returned (PDict [("answer", PStr Scenario.prose);
                        ("references", PList [PStr "无法识别格式化参考"])]).
Proof.
  destruct (parse_response_not_json (Scenario.answering Scenario.prose)
              Scenario.prose Scenario.start eq_refl) as [H1 H2].
  split; [reflexivity |]. split; [exact H1 |].
  destruct (compose_total "试用期被辞退是否有赔偿？" "基本法律信息" "劳动法")
    as [text C].
  exact (H2 _ _ _ text (Some "sk-test") Spec.default_api_base Scenario.start
           eq_refl eq_refl C eq_refl).
Defined.

(** C2, on the code.  [Cases.deep_reply], two thousand opening brackets
    and then prose, is not decodable as JSON, yet the parsing step fails on
    it and the answer of [legal_agent] is not the reply.  [json.loads] gives
    up with RecursionError before it meets the prose; the handler of utils.py
    191-196, written for the replies that are not JSON, catches
    JSONDecodeError only, so the exception leaves the parsing step and the
    handler of the chain's failures (197-201) answers that the AI service
    could not be reached. *)
Theorem parse_response_deep_reply :
  JSON.loads Cases.deep_reply = JSON.NotJSON
  /\ json_loads (Cases.limited Cases.deep_reply) Cases.deep_reply
     = JSON.Crashed
         (Exception
            "maximum recursion depth exceeded while decoding a JSON array from a unicode string")
  /\ Utils.parse_response (Cases.limited Cases.deep_reply) Cases.deep_reply
       Scenario.start
     = (Raised
          (Exception
             "maximum recursion depth exceeded while decoding a JSON array from a unicode string"),
        Scenario.start)
  /\ fst (Utils.legal_agent (Cases.limited Cases.deep_reply)
            "试用期被辞退是否有赔偿？" "基本法律信息" "劳动法" Scenario.start)
     = Returned
         (PDict [("answer",
                  PStr "抱歉，无法连接到AI服务：maximum recursion depth exceeded while decoding a JSON array from a unicode string");
                 ("references", PList [PStr "请检查您的API密钥和网络连接"])])
  /\ fst (Utils.legal_agent (Cases.limited Cases.deep_reply)
            "试用期被辞退是否有赔偿？" "基本法律信息" "劳动法" Scenario.start)
     <> Returned
          (PDict [("answer", PStr Cases.deep_reply);
                  ("references", PList [PStr "无法识别格式化参考"])]).
Proof.
  split; [vm_compute; reflexivity |].
  split; [vm_compute; reflexivity |].
  split; [vm_compute; reflexivity |].
  assert (E : fst (Utils.legal_agent (Cases.limited Cases.deep_reply)
                     "试用期被辞退是否有赔偿？" "基本法律信息" "劳动法"
                     Scenario.start)
              = Returned
                  (PDict [("answer",
                           PStr "抱歉，无法连接到AI服务：maximum recursion depth exceeded while decoding a JSON array from a unicode string");
                          ("references",
                           PList [PStr "请检查您的API密钥和网络连接"])]))
    by (vm_compute; reflexivity).
  split; [exact E |]. rewrite E. intros H.
  injection H as H. discriminate H.
Qed.

(** C5. When the resolver yields no API key, [legal_agent] returns a result
    whose answer says that the API key was not found; no request is sent,
    and the session is left as it was. *)
Theorem legal_agent_missing_key (w : world)
  (query consult_type legal_domain : string) (m m1 : machine)
  (key : option string) (base : string) :
  Utils.get_api_credentials w m = (Returned (key, base), m1) ->
  truthy key = false ->
  exists answer,
    Utils.legal_agent w query consult_type legal_domain m
    = (Returned
         (PDict [("answer", PStr answer);
                 ("references", PList [PStr "请在Streamlit设置中添加API_KEY"])]),
       m1)
    /\ Str.occurs "未找到API密钥" answer
    /\ requests m1 = requests m
    /\ session m1 = session m.
Proof.
  intros H1 H2. eexists. split.
  - apply (legal_agent_no_key w query consult_type legal_domain m m1 key base
             H1 H2).
  - split; [apply occursb_spec; reflexivity |].
    destruct (get_api_credentials_returns w m) as [c [m' [E [S [_ R]]]]].
    rewrite E in H1. injection H1 as _ <-. now split.
Qed.

Lemma legal_agent_missing_key_witness :
  exists m1,
    Utils.get_api_credentials
      (Scenario.world_of Scenario.no_secret (Returned []) (Returned "{}"))
      Scenario.start
    = (Returned (None, "https://api.openai.com/v1"), m1)
    /\ truthy None = false
    /\ exists answer,
        Utils.legal_agent
          (Scenario.world_of Scenario.no_secret (Returned []) (Returned "{}"))
          "试用期被辞退是否有赔偿？" "基本法律信息" "劳动法" Scenario.start
        = (Returned
             (PDict [("answer", PStr answer);
                     ("references",
                      PList [PStr "请在Streamlit设置中添加API_KEY"])]),
           m1)
        /\ Str.occurs "未找到API密钥" answer
        /\ requests m1 = requests Scenario.start
        /\ session m1 = session Scenario.start.
Proof.
  eexists. split; [reflexivity |]. split; [reflexivity |].
  exact (legal_agent_missing_key
           (Scenario.world_of Scenario.no_secret (Returned []) (Returned "{}"))
           "试用期被辞退是否有赔偿？" "基本法律信息" "劳动法" Scenario.start _
           None "https://api.openai.com/v1" eq_refl eq_refl).
Defined.

(** C1, as stated, fails: when the model replies with a JSON text that has
    no answer, such as the empty object, the agent returns what the text
    decodes to, and that has no answer field. *)
Lemma legal_agent_reply_without_answer :
  fst (Utils.legal_agent (Scenario.answering "{}")
         "试用期被辞退是否有赔偿？" "基本法律信息" "劳动法" Scenario.start)
  = Returned (PDict [])
  /\ ~ Spec.has_answer (PDict []).
Proof.
  split; [reflexivity |]. intros [d [a [E L]]].
  injection E as <-. discriminate L.
Qed.

(** C1, amended. For every input, [legal_agent] returns a value and never
    lets an exception through, and it leaves the session as it was.  Which
    value is settled by the credentials the resolver returns, by what the
    chain does with the request made of them and of the composed prompt, and
    by what [json.loads] does with the reply.  Without a key it is the record
    that reports the missing key; when building or running the chain raises,
    the record that says the AI service could not be reached, with the
    exception's text; when [json.loads] raises JSONDecodeError, the record
    whose answer is the reply; each of them has a text answer and one
    reference.  When the reply decodes, the value is what it decodes to: for
    a JSON object the object as it is, with an answer only if the reply has
    one.  Of the remaining replies, those on which [json.loads] raises
    something else and those that decode to something else than an object,
    the statement records what the code returns. *)
Theorem legal_agent_always_returns (w : world)
  (query consult_type legal_domain : string) (m : machine) :
  exists v m' key base m1 text,
    Utils.legal_agent w query consult_type legal_domain m = (Returned v, m')
    /\ session m' = session m
    /\ Utils.get_api_credentials w m = (Returned (key, base), m1)
    /\ Utils.compose query consult_type legal_domain = Some text
    /\ match truthy key with
       | false =>
           v = PDict [("answer",
                       PStr "错误：未找到API密钥。请在Streamlit Secrets中设置API_KEY。");
                      ("references",
                       PList [PStr "请在Streamlit设置中添加API_KEY"])]
       | true =>
           match chain_run w (Utils.chat_request key base text) with
           | Raised e =>
               v = PDict [("answer",
                           PStr ("抱歉，无法连接到AI服务：" ++ str_of_exn e));
                          ("references",
                           PList [PStr "请检查您的API密钥和网络连接"])]
           | Returned response =>
               match json_loads w response with
               | JSON.NotJSON =>
                   v = PDict [("answer", PStr response);
                              ("references",
                               PList [PStr "无法识别格式化参考"])]
               | JSON.Decoded reply => v = reply
               | JSON.Crashed e =>
                   v = PDict [("answer",
                               PStr ("抱歉，无法连接到AI服务："
                                       ++ str_of_exn e));
                              ("references",
                               PList [PStr "请检查您的API密钥和网络连接"])]
               end
           end
       end.
Proof.
  destruct (get_api_credentials_returns w m) as [[key base] [m1 [E [S _]]]].
  destruct (compose_total query consult_type legal_domain) as [text C].
  destruct (truthy key) eqn:T.
  - eexists _, _, key, base, m1, text. split.
    + apply (legal_agent_with_key w query consult_type legal_domain text
               m m1 key base E T C).
    + split; [exact S |]. split; [exact E |]. split; [exact C |].
      rewrite T.
      destruct (chain_run w _) as [response|e]; [| reflexivity].
      now destruct (json_loads w response).
  - eexists _, _, key, base, m1, text. split.
    + apply (legal_agent_no_key w query consult_type legal_domain m m1 key
               base E T).
    + split; [exact S |]. split; [exact E |]. split; [exact C |].
      now rewrite T.
Qed.

(** C3, as stated, fails: a reply that decodes and has neither references
    nor steps gives a result that has neither. *)
Lemma legal_agent_keeps_fields_absent :
  fst (Utils.legal_agent
         (Scenario.answering (Str.text "{`answer`: `试用期内辞退须有法定理由。`}"))
         "试用期被辞退是否有赔偿？" "基本法律信息" "劳动法" Scenario.start)
  = Returned (PDict [("answer", PStr "试用期内辞退须有法定理由。")])
  /\ lookup "references" [("answer", PStr "试用期内辞退须有法定理由。")] = None
  /\ lookup "steps" [("answer", PStr "试用期内辞退须有法定理由。")] = None.
Proof. split; [reflexivity |]. split; reflexivity. Qed.

(** C3, amended. When the reply decodes as a JSON object, the result of
    [legal_agent] is that object as it is: a field absent from the reply is
    absent from the result.  The empty sequence comes in where the result is
    read: [result.get(field, [])] gives it for an absent field, and the
    reports then list no reference and no step. *)
Theorem legal_agent_decoded_reply (w : world)
  (query consult_type legal_domain text response : string)
  (m m1 : machine) (key : option string) (base : string)
  (reply : list (string * value)) :
  Utils.get_api_credentials w m = (Returned (key, base), m1) ->
  truthy key = true ->
  Utils.compose query consult_type legal_domain = Some text ->
  chain_run w (Utils.chat_request key base text) = Returned response ->
  json_loads w response = JSON.Decoded (PDict reply) ->
  fst (Utils.legal_agent w query consult_type legal_domain m)
  = Returned (PDict reply)
  /\ (forall field,
        lookup field reply = None ->
        get (PDict reply) field (PList []) = Some (PList []))
  /\ (lookup "references" reply = None ->
      Main.reference_lines (PDict reply) = Some [])
  /\ (lookup "steps" reply = None ->
      Main.step_lines (PDict reply) = Some []).
Proof.
  intros H1 H2 H3 H4 H5. split.
  - rewrite (legal_agent_with_key w query consult_type legal_domain text
               m m1 key base H1 H2 H3).
    now rewrite H4, H5.
  - split; [| split].
    + intros field H. cbn. now rewrite H.
    + intros H. unfold Main.reference_lines. cbn. now rewrite H.
    + intros H. unfold Main.step_lines. cbn. now rewrite H.
Qed.

Lemma legal_agent_decoded_reply_witness :
  json_loads
    (Scenario.answering (Str.text "{`answer`: `试用期内辞退须有法定理由。`}"))
    (Str.text "{`answer`: `试用期内辞退须有法定理由。`}")
  = JSON.Decoded (PDict [("answer", PStr "试用期内辞退须有法定理由。")])
  /\ fst (Utils.legal_agent
            (Scenario.answering
               (Str.text "{`answer`: `试用期内辞退须有法定理由。`}"))
            "试用期被辞退是否有赔偿？" "基本法律信息" "劳动法" Scenario.start)
     = Returned (PDict [("answer", PStr "试用期内辞退须有法定理由。")])
  /\ Main.reference_lines (PDict [("answer", PStr "试用期内辞退须有法定理由。")])
     = Some []
  /\ Main.step_lines (PDict [("answer", PStr "试用期内辞退须有法定理由。")])
     = Some [].
Proof.
  split; [reflexivity |].
  destruct (compose_total "试用期被辞退是否有赔偿？" "基本法律信息" "劳动法")
    as [text C].
  destruct (legal_agent_decoded_reply
              (Scenario.answering
                 (Str.text "{`answer`: `试用期内辞退须有法定理由。`}"))
              "试用期被辞退是否有赔偿？" "基本法律信息" "劳动法" text
              (Str.text "{`answer`: `试用期内辞退须有法定理由。`}")
              Scenario.start Scenario.start (Some "sk-test")
              Spec.default_api_base
              [("answer", PStr "试用期内辞退须有法定理由。")]
              eq_refl eq_refl C eq_refl eq_refl)
    as [H1 [_ [H2 H3]]].
  split; [exact H1 |]. split; [exact (H2 eq_refl) | exact (H3 eq_refl)].
Defined.

End Agent.

(** ** The first tab *)

Section Consultation.

Lemma legal_agent_returns (w : world)
  (query consult_type legal_domain : string) (m : machine) :
  exists v m',
    Utils.legal_agent w query consult_type legal_domain m = (Returned v, m')
    /\ session m' = session m.
Proof.
  destruct (get_api_credentials_returns w m) as [[key base] [m1 [E [S _]]]].
  destruct (truthy key) eqn:T.
  - destruct (compose_total query consult_type legal_domain) as [text C].
    rewrite (legal_agent_with_key w query consult_type legal_domain text
               m m1 key base E T C).
    now eexists _, _.
  - rewrite (legal_agent_no_key w query consult_type legal_domain m m1 key base
               E T).
    now eexists _, _.
Qed.

(** A consultation saves one item, whatever the agent returned. *)
Lemma basic_info_button_saves (w : world) (query timestamp : string)
  (m : machine) :
  query <> "" ->
  exists result m1 m2,
    Utils.legal_agent w query "基本法律信息" (legal_domain (session m)) m
    = (Returned result, m1)
    /\ Main.basic_info_button w query timestamp m = (Returned (Some result), m2)
    /\ chat_history (session m2)
       = (chat_history (session m)
          ++ [Main.basic_item query result timestamp])%list.
Proof.
  intros Q. apply String.eqb_neq in Q.
  destruct (legal_agent_returns w query "基本法律信息"
              (legal_domain (session m)) m) as [result [m1 [E S]]].
  exists result, m1. unfold Main.basic_info_button. rewrite Q.
  unfold bind at 1. unfold get_session at 1. unfold bind at 1. rewrite E.
  unfold bind at 1, Main.append_history, bind, get_session, put_session, ret.
  eexists. split; [reflexivity |]. split; [reflexivity |]. cbn.
  now rewrite S.
Qed.

(** The labour-law question of the first tab, answered with a structured
    reply: the result is the reply, and one item of that type is saved. *)
Example consultation_saved :
  let reply :=
    Str.text "{`answer`:`...`,`references`:[`《劳动合同法》第21条`]}" in
  let result :=
    PDict [("answer", PStr "...");
           ("references", PList [PStr "《劳动合同法》第21条"])] in
  let run :=
    Main.basic_info_button (Scenario.answering reply)
      "试用期被辞退是否有赔偿？" Scenario.clock Scenario.start in
  fst run = Returned (Some result)
  /\ chat_history (session (snd run))
     = [Main.basic_item "试用期被辞退是否有赔偿？" result Scenario.clock]
  /\ map Run.prompt (requests (snd run))
     = match Utils.compose "试用期被辞退是否有赔偿？" "基本法律信息"
               "一般法律咨询" with
       | Some text => [text]
       | None => []
       end.
Proof. split; [reflexivity |]. split; reflexivity. Qed.

End Consultation.

(** ** The reports *)

Section Reports.

Lemma sequence_add_str (prefix : string) (l : list string) :
  sequence (map (add_str prefix) (map PStr l)) = Some (map (append prefix) l).
Proof.
  induction l as [|x l IH]; [reflexivity |].
  cbn [map sequence add_str]. now rewrite IH.
Qed.

Lemma sequence_numbered (start : nat) (l : list string) :
  sequence
    (map (fun p => add_str (Str.of_nat (fst p + 1) ++ ". ") (snd p))
       (enumerate start (map PStr l)))
  = Some (map (fun p => Str.of_nat (fst p + 1) ++ ". " ++ snd p)
            (enumerate start l)).
Proof.
  revert start; induction l as [|x l IH]; intros start; [reflexivity |].
  cbn [map enumerate sequence add_str fst snd]. rewrite IH.
  now rewrite append_assoc.
Qed.

Lemma reference_lines_texts (reply : list (string * value))
  (references : list string) :
  Spec.texts_under reply "references" references ->
  Main.reference_lines (PDict reply) = Some (map (append "- ") references).
Proof.
  unfold Main.reference_lines. cbn [get].
  intros [[-> ->] | ->]; [reflexivity |]. cbn [iter].
  apply sequence_add_str.
Qed.

Lemma step_lines_texts (reply : list (string * value)) (steps : list string) :
  Spec.texts_under reply "steps" steps ->
  Main.step_lines (PDict reply)
  = Some (map (fun p => Str.of_nat (fst p + 1) ++ ". " ++ snd p)
            (enumerate 0 steps)).
Proof.
  unfold Main.step_lines. cbn [get].
  intros [[-> ->] | ->]; [reflexivity |]. cbn [iter].
  apply sequence_numbered.
Qed.

(** The next field stands in the text after [pre]. *)
Ltac field pre :=
  match goal with
  | |- Str.in_order (_ :: _) _ =>
      exists pre; eexists; split; [reflexivity |]
  end.

(** C7, as stated, fails: the document report and the case report have no
    consultation type after their date. The case report does not contain
    its type at all; the document report has it in its title only, above
    the date. *)
Lemma reports_without_consultation_type :
  (exists report,
      Main.case_report (Scenario.answering "{}") Scenario.clock "劳动法"
        "公司在试用期内辞退员工" "如何维权" Scenario.strategy
      = Some report
      /\ ~ Str.in_order
             [Scenario.clock; Main.label Main.CaseStrategy;
              "公司在试用期内辞退员工"; "如何维权"; "可以申请劳动仲裁。";
              "1. 收集证据"; "- 《劳动合同法》第48条"]
             report
      /\ ~ Str.occurs (Main.label Main.CaseStrategy) report)
  /\ (exists report,
        Main.document_report (Scenario.answering "{}") Scenario.clock
          (Some "合同.txt") "如何维权" Scenario.strategy
        = Some report
        /\ ~ Str.in_order
               [Scenario.clock; Main.label Main.DocumentInterpretation;
                "合同.txt"; "如何维权"; "可以申请劳动仲裁。";
                "- 《劳动合同法》第48条"]
               report).
Proof.
  split; eexists; (split; [reflexivity |]).
  - split.
    + intros H. apply in_orderb_spec in H. vm_compute in H. discriminate H.
    + intros H. apply occursb_spec in H. vm_compute in H. discriminate H.
  - intros H. apply in_orderb_spec in H. vm_compute in H. discriminate H.
Qed.

(** C7, amended. For a result whose references and steps are lists of
    texts, each report is built and holds its fields in this order.  Basic
    information: date, consultation type, domain, question, answer,
    references.  Document interpretation: date, file name, question, answer,
    references.  Case strategy: date, domain, case details, question,
    answer, steps, references. *)
Theorem report_field_order (w : world)
  (timestamp legal_domain query doc_query case_details case_query : string)
  (doc_name : option string) (reply : list (string * value))
  (references steps : list string) :
  Spec.texts_under reply "references" references ->
  Spec.texts_under reply "steps" steps ->
  (exists report,
      Main.basic_report w timestamp legal_domain query (PDict reply)
      = Some report
      /\ Str.in_order
           ["日期: " ++ timestamp;
            "咨询类型: " ++ Main.label Main.BasicInfo;
            "法律领域: " ++ legal_domain;
            "问题: " ++ query;
            "法律建议:" ++ Str.nl ++ Spec.answer_text w reply;
            "法律参考:" ++ Str.nl ++ Spec.reference_block references]
           report)
  /\ (exists report,
        Main.document_report w timestamp doc_name doc_query (PDict reply)
        = Some report
        /\ Str.in_order
             ["日期: " ++ timestamp;
              "文件名: "
                ++ match doc_name with Some n => n | None => "未知文件" end;
              "问题: " ++ doc_query;
              "解读结果:" ++ Str.nl ++ Spec.answer_text w reply;
              "法律参考:" ++ Str.nl ++ Spec.reference_block references]
             report)
  /\ (exists report,
        Main.case_report w timestamp legal_domain case_details case_query
          (PDict reply)
        = Some report
        /\ Str.in_order
             ["日期: " ++ timestamp;
              "法律领域: " ++ legal_domain;
              "案件情况: " ++ case_details;
              "咨询问题: " ++ case_query;
              "案件分析:" ++ Str.nl ++ Spec.answer_text w reply;
              "建议步骤:" ++ Str.nl ++ Spec.step_block steps;
              "法律参考:" ++ Str.nl ++ Spec.reference_block references]
             report).
Proof.
  intros R S.
  unfold Main.basic_report, Main.document_report, Main.case_report.
  rewrite (reference_lines_texts reply references R).
  rewrite (step_lines_texts reply steps S). cbn [get].
  split; [| split]; (eexists; split; [reflexivity |]).
  - field "法律咨询报告
". field Str.nl. field Str.nl. field Str.nl. field (Str.nl ++ Str.nl).
    field (Str.nl ++ Str.nl). exact I.
  - field "法律文件解读报告
". field Str.nl. field Str.nl. field (Str.nl ++ Str.nl).
    field (Str.nl ++ Str.nl). exact I.
  - field "案件研究报告
". field Str.nl. field Str.nl. field Str.nl. field (Str.nl ++ Str.nl).
    field (Str.nl ++ Str.nl). field (Str.nl ++ Str.nl). exact I.
Qed.

Lemma report_field_order_witness :
  Spec.texts_under
    [("answer", PStr "可以申请劳动仲裁。");
     ("steps", PList [PStr "收集证据"; PStr "申请仲裁"]);
     ("references", PList [PStr "《劳动合同法》第48条"])]
    "references" ["《劳动合同法》第48条"]
  /\ Spec.texts_under
       [("answer", PStr "可以申请劳动仲裁。");
        ("steps", PList [PStr "收集证据"; PStr "申请仲裁"]);
        ("references", PList [PStr "《劳动合同法》第48条"])]
       "steps" ["收集证据"; "申请仲裁"]
  /\ exists report,
      Main.case_report (Scenario.answering "{}") Scenario.clock "劳动法"
        "公司在试用期内辞退员工" "如何维权" Scenario.strategy
      = Some report
      /\ Str.in_order
           ["日期: " ++ Scenario.clock;
            "法律领域: 劳动法";
            "案件情况: 公司在试用期内辞退员工";
            "咨询问题: 如何维权";
            "案件分析:" ++ Str.nl ++ "可以申请劳动仲裁。";
            "建议步骤:" ++ Str.nl ++ "1. 收集证据" ++ Str.nl ++ "2. 申请仲裁";
            "法律参考:" ++ Str.nl ++ "- 《劳动合同法》第48条"]
           report.
Proof.
  assert (R : Spec.texts_under
                [("answer", PStr "可以申请劳动仲裁。");
                 ("steps", PList [PStr "收集证据"; PStr "申请仲裁"]);
                 ("references", PList [PStr "《劳动合同法》第48条"])]
                "references" ["《劳动合同法》第48条"])
    by (right; reflexivity).
  assert (S : Spec.texts_under
                [("answer", PStr "可以申请劳动仲裁。");
                 ("steps", PList [PStr "收集证据"; PStr "申请仲裁"]);
                 ("references", PList [PStr "《劳动合同法》第48条"])]
                "steps" ["收集证据"; "申请仲裁"])
    by (right; reflexivity).
  split; [exact R |]. split; [exact S |].
  exact (proj2 (proj2 (report_field_order (Scenario.answering "{}")
                         Scenario.clock "劳动法" "" ""
                         "公司在试用期内辞退员工" "如何维权" None _ _ _ R S))).
Defined.

End Reports.

(** * More of the program *)

(** ** The agent's calls *)

Section Calls.

Lemma send_requests (r : request) (m : machine) :
  requests (snd (send r m)) = (requests m ++ [r])%list
  /\ session (snd (send r m)) = session m
  /\ stdout (snd (send r m)) = stdout m
  /\ page (snd (send r m)) = page m.
Proof. now repeat split. Qed.

(** With a key the resolver leaves the machine as it found it. *)
Lemma get_api_credentials_key_machine (w : world) (m m1 : machine)
  (key : option string) (base : string) :
  Utils.get_api_credentials w m = (Returned (key, base), m1) ->
  truthy key = true ->
  m1 = m.
Proof.
  intros H T. destruct (secrets_API_KEY w) as [k|e] eqn:H1.
  - rewrite (get_api_credentials_secret w m k H1) in H. congruence.
  - destruct (dotenv_environ w) as [environ|e'] eqn:H2.
    + destruct (truthy (lookup "OPENAI_API_KEY" environ)) eqn:H3.
      * rewrite (get_api_credentials_environ w m e environ H1 H2 H3) in H.
        congruence.
      * rewrite (get_api_credentials_none w m e H1) in H.
        -- injection H as <- _ _. discriminate T.
        -- unfold Spec.no_environment_key. now rewrite H2.
    + rewrite (get_api_credentials_none w m e H1) in H.
      * injection H as <- _ _. discriminate T.
      * unfold Spec.no_environment_key. now rewrite H2.
Qed.

(** What a call of the agent leaves behind: one chain started when a key
    was found, none otherwise. *)
Lemma legal_agent_trace (w : world)
  (query consult_type legal_domain : string) (m : machine) :
  exists v m' key base m1 text,
    Utils.get_api_credentials w m = (Returned (key, base), m1)
    /\ Utils.compose query consult_type legal_domain = Some text
    /\ Utils.legal_agent w query consult_type legal_domain m
       = (Returned v, m')
    /\ requests m'
       = (requests m
          ++ if truthy key then [Utils.chat_request key base text] else [])%list
    /\ stdout m' = stdout m
    /\ session m' = session m.
Proof.
  destruct (get_api_credentials_returns w m)
    as [[key base] [m1 [E [S [O R]]]]].
  destruct (compose_total query consult_type legal_domain) as [text C].
  destruct (truthy key) eqn:T.
  - eexists _, _, key, base, m1, text. split; [exact E |].
    split; [exact C |]. split.
    + apply (legal_agent_with_key w query consult_type legal_domain text
               m m1 key base E T C).
    + destruct (send_requests (Utils.chat_request key base text) m1)
        as [H1 [H2 [H3 _]]].
      rewrite H1, H2, H3, R, O, S, T. now repeat split.
  - eexists _, _, key, base, m1, text. split; [exact E |].
    split; [exact C |]. split.
    + apply (legal_agent_no_key w query consult_type legal_domain m m1 key
               base E T).
    + rewrite T, app_nil_r. now repeat split.
Qed.

(** X1. When building or running the chain raises, or [json.loads] raises
    something else than a decode error, [legal_agent] answers that the AI
    service could not be reached, with the exception's text, and refers to
    the key and the network.  The session, the page and the output are as
    they were before the call. *)
Theorem legal_agent_call_failure (w : world)
  (query consult_type legal_domain text : string) (m m1 : machine)
  (key : option string) (base : string) (e : exn) :
  Utils.get_api_credentials w m = (Returned (key, base), m1) ->
  truthy key = true ->
  Utils.compose query consult_type legal_domain = Some text ->
  (chain_run w (Utils.chat_request key base text) = Raised e
   \/ exists response,
        chain_run w (Utils.chat_request key base text) = Returned response
        /\ json_loads w response = JSON.Crashed e) ->
  exists m',
    Utils.legal_agent w query consult_type legal_domain m
    = (Returned
         (PDict [("answer",
                  PStr ("抱歉，无法连接到AI服务：" ++ str_of_exn e));
                 ("references", PList [PStr "请检查您的API密钥和网络连接"])]),
       m')
    /\ session m' = session m
    /\ page m' = page m
    /\ stdout m' = stdout m.
Proof.
  intros H1 H2 H3 H4. eexists. split.
  - rewrite (legal_agent_with_key w query consult_type legal_domain text
               m m1 key base H1 H2 H3).
    destruct H4 as [H4 | [response [H4 H5]]]; rewrite H4.
    + reflexivity.
    + now rewrite H5.
  - rewrite (get_api_credentials_key_machine w m m1 key base H1 H2).
    now repeat split.
Qed.

Lemma legal_agent_call_failure_witness :
  (exists m',
      Utils.legal_agent (Cases.failing "Connection error.")
        "试用期被辞退是否有赔偿？" "基本法律信息" "劳动法" Scenario.start
      = (Returned
           (PDict [("answer",
                    PStr "抱歉，无法连接到AI服务：Connection error.");
                   ("references",
                    PList [PStr "请检查您的API密钥和网络连接"])]),
         m')
      /\ session m' = Main.init_session_state)
  /\ json_loads (Cases.limited Cases.deep_reply) Cases.deep_reply
     = JSON.Crashed
         (Exception
            "maximum recursion depth exceeded while decoding a JSON array from a unicode string")
  /\ (exists m',
        Utils.legal_agent (Cases.limited Cases.deep_reply)
          "试用期被辞退是否有赔偿？" "基本法律信息" "劳动法" Scenario.start
        = (Returned
             (PDict [("answer",
                      PStr ("抱歉，无法连接到AI服务："
                              ++ "maximum recursion depth exceeded while decoding a JSON array from a unicode string"));
                     ("references",
                      PList [PStr "请检查您的API密钥和网络连接"])]),
           m')
        /\ session m' = Main.init_session_state).
Proof.
  destruct (compose_total "试用期被辞退是否有赔偿？" "基本法律信息" "劳动法")
    as [text C].
  assert (J : json_loads (Cases.limited Cases.deep_reply) Cases.deep_reply
              = JSON.Crashed
                  (Exception
                     "maximum recursion depth exceeded while decoding a JSON array from a unicode string"))
    by (vm_compute; reflexivity).
  split; [| split; [exact J |]].
  - destruct (legal_agent_call_failure (Cases.failing "Connection error.")
                "试用期被辞退是否有赔偿？" "基本法律信息" "劳动法" text
                Scenario.start Scenario.start (Some "sk-test")
                Spec.default_api_base (Exception "Connection error.")
                eq_refl eq_refl C (or_introl eq_refl))
      as [m' [H1 [H2 _]]].
    exists m'. split; [exact H1 | exact H2].
  - destruct (legal_agent_call_failure (Cases.limited Cases.deep_reply)
                "试用期被辞退是否有赔偿？" "基本法律信息" "劳动法" text
                Scenario.start Scenario.start (Some "sk-test")
                Spec.default_api_base
                (Exception
                   "maximum recursion depth exceeded while decoding a JSON array from a unicode string")
                eq_refl eq_refl C
                (or_intror (ex_intro _ Cases.deep_reply (conj eq_refl J))))
      as [m' [H1 [H2 _]]].
    exists m'. split; [exact H1 | exact H2].
Defined.

(** X4. A key found in the secrets store is returned as it is, and the
    environment is not looked at.  So with an empty [API_KEY] in the secrets
    [legal_agent] reports the missing key whatever the environment holds,
    sends nothing and shows nothing. *)
Theorem empty_secret_hides_environment (w : world)
  (query consult_type legal_domain : string) (m : machine) :
  secrets_API_KEY w = Returned "" ->
  Utils.get_api_credentials w m
  = (Returned (Some "", "https://twapi.openai-hk.com/v1"), m)
  /\ Utils.legal_agent w query consult_type legal_domain m
     = (Returned
          (PDict [("answer",
                   PStr "错误：未找到API密钥。请在Streamlit Secrets中设置API_KEY。");
                  ("references",
                   PList [PStr "请在Streamlit设置中添加API_KEY"])]),
        m).
Proof.
  intros H.
  assert (E : Utils.get_api_credentials w m
              = (Returned (Some "", "https://twapi.openai-hk.com/v1"), m))
    by apply (get_api_credentials_secret w m "" H).
  split; [exact E |].
  apply (legal_agent_no_key w query consult_type legal_domain m m (Some "")
           "https://twapi.openai-hk.com/v1" E eq_refl).
Qed.

Lemma empty_secret_hides_environment_witness :
  lookup "OPENAI_API_KEY" [("OPENAI_API_KEY", "sk-env")] = Some "sk-env"
  /\ Utils.legal_agent
       (Scenario.world_of (Returned "")
          (Returned [("OPENAI_API_KEY", "sk-env")]) (Returned "{}"))
       "试用期被辞退是否有赔偿？" "基本法律信息" "劳动法" Scenario.start
     = (Returned
          (PDict [("answer",
                   PStr "错误：未找到API密钥。请在Streamlit Secrets中设置API_KEY。");
                  ("references",
                   PList [PStr "请在Streamlit设置中添加API_KEY"])]),
        Scenario.start).
Proof.
  split; [reflexivity |].
  exact (proj2 (empty_secret_hides_environment
                  (Scenario.world_of (Returned "")
                     (Returned [("OPENAI_API_KEY", "sk-env")]) (Returned "{}"))
                  "试用期被辞退是否有赔偿？" "基本法律信息" "劳动法"
                  Scenario.start eq_refl)).
Defined.

(** X5. The resolver shows its error exactly when it returns no key.  With
    a key it leaves the machine as it was; without one it adds one error to
    the page, which quotes the exception of the secrets store, also when the
    environment fallback failed for a reason of its own.  A key found in the
    environment is never empty. *)
Theorem get_api_credentials_banner (w : world) (m : machine) :
  exists key base m',
    Utils.get_api_credentials w m = (Returned (key, base), m')
    /\ match key with
       | Some k =>
           m' = m
           /\ (secrets_API_KEY w = Returned k \/ k <> "")
       | None =>
           base = "https://api.openai.com/v1"
           /\ exists e,
               secrets_API_KEY w = Raised e
               /\ page m'
                  = (page m
                     ++ [st_error ("获取API凭据时出错: " ++ str_of_exn e)])%list
       end.
Proof.
  destruct (secrets_API_KEY w) as [k|e] eqn:H1.
  - rewrite (get_api_credentials_secret w m k H1).
    eexists _, _, _. split; [reflexivity |]. split; [reflexivity | now left].
  - destruct (dotenv_environ w) as [environ|e'] eqn:H2.
    + destruct (truthy (lookup "OPENAI_API_KEY" environ)) eqn:H3.
      * rewrite (get_api_credentials_environ w m e environ H1 H2 H3).
        eexists _, _, _. split; [reflexivity |].
        destruct (lookup "OPENAI_API_KEY" environ) as [k|]; [| discriminate].
        split; [reflexivity |]. right. intros ->. discriminate.
      * rewrite (get_api_credentials_none w m e H1).
        -- eexists _, _, _. split; [reflexivity |].
           split; [reflexivity |]. now exists e.
        -- unfold Spec.no_environment_key. now rewrite H2.
    + rewrite (get_api_credentials_none w m e H1).
      * eexists _, _, _. split; [reflexivity |].
        split; [reflexivity |]. now exists e.
      * unfold Spec.no_environment_key. now rewrite H2.
Qed.

End Calls.

(** ** The prompt, once more *)

Section PromptTail.

Lemma compose_shape :
  exists a b c : string,
    forall query consult_type legal_domain,
      Utils.compose query consult_type legal_domain
      = Some (a ++ consult_type ++ b ++ legal_domain ++ c
                ++ "用户问题: " ++ query ++ Str.nl).
Proof.
  let ps := eval vm_compute in (Format.outside Utils.PROMPT_TEMPLATE) in
  match ps with
  | Some [Format.Lit ?a; Format.Field _; Format.Lit ?b; Format.Field _;
          Format.Lit ?c; Format.Field _; Format.Lit _] =>
      let n := constr:(String.length c - String.length "用户问题: ") in
      let c' := eval vm_compute in (String.substring 0 n c) in
      exists a, b, c'
  end.
  intros; vm_compute; reflexivity.
Qed.

(** X3. Composing never fails, whatever the three texts hold, braces and
    field names included, and the query comes last: the prompt is a head
    fixed by the consultation type and the legal domain, then the line
    "用户问题: " with the query as it is. *)
Theorem compose_query_last (consult_type legal_domain : string) :
  exists head,
    (forall query,
        Utils.compose query consult_type legal_domain
        = Some (head ++ "用户问题: " ++ query ++ Str.nl))
    /\ Str.occurs consult_type head
    /\ Str.occurs legal_domain head.
Proof.
  destruct compose_shape as [a [b [c E]]].
  exists (a ++ consult_type ++ b ++ legal_domain ++ c). split.
  - intros query. rewrite E. now rewrite !append_assoc.
  - split.
    + apply occurs_append_r, occurs_here.
    + do 3 apply occurs_append_r. apply occurs_here.
Qed.

End PromptTail.

(** ** The sidebar *)

Section Sidebar.

Lemma distinct_NoDup (l : list string) : Page.distinct l = true -> NoDup l.
Proof.
  induction l as [|x l IH]; [constructor |]. cbn [Page.distinct].
  rewrite andb_true_iff, negb_true_iff. intros [H1 H2]. constructor.
  - intros I. assert (E : existsb (String.eqb x) l = true).
    { apply existsb_exists. exists x. split; [exact I | apply String.eqb_refl]. }
    congruence.
  - now apply IH.
Qed.

Lemma list_index_In (x : string) (l : list string) :
  In x l -> exists i, Page.list_index x l = Some i /\ nth_error l i = Some x.
Proof.
  induction l as [|y l IH]; [intros [] |]. intros H. cbn [Page.list_index].
  destruct (String.eqb_spec x y) as [->|N].
  - now exists 0.
  - destruct H as [H|H]; [congruence |].
    destruct (IH H) as [i [E1 E2]]. rewrite E1. now exists (S i).
Qed.

Lemma list_index_not_In (x : string) (l : list string) :
  ~ In x l -> Page.list_index x l = None.
Proof.
  induction l as [|y l IH]; [reflexivity |]. intros H. cbn [Page.list_index].
  destruct (String.eqb_spec x y) as [->|N].
  - exfalso. apply H. now left.
  - rewrite IH; [reflexivity |]. intros I. apply H. now right.
Qed.

Lemma domains_have_questions (domain : string) :
  In domain Utils.LEGAL_DOMAINS ->
  exists questions,
    lookup domain Utils.SAMPLE_QUESTIONS = Some questions
    /\ List.length questions = 3
    /\ Page.distinct (map Page.sample_key questions) = true.
Proof.
  unfold Utils.LEGAL_DOMAINS. intros H.
  repeat (destruct H as [<- | H];
          [eexists; split; [reflexivity | split; vm_compute; reflexivity] |]).
  destruct H.
Qed.

(** X6. On a session whose domain is one of the listed domains, the
    sidebar never raises: [index] finds the domain, the session takes the
    selected domain and keeps the rest, and the questions shown are the
    three of the selected domain itself, never the fallback; the keys of
    their buttons are distinct.  On a domain that is not listed it raises. *)
Theorem sidebar_listed_domain (selected : string) (s : session_state) :
  In selected Utils.get_legal_domains ->
  (In (legal_domain s) Utils.get_legal_domains ->
   exists index questions,
     Page.sidebar selected s
     = Some ({| chat_history := chat_history s;
                doc_content := doc_content s;
                consultation_results := consultation_results s;
                legal_domain := selected |}, index, questions)
     /\ nth_error Utils.get_legal_domains index = Some (legal_domain s)
     /\ lookup selected Utils.SAMPLE_QUESTIONS = Some questions
     /\ List.length questions = 3
     /\ NoDup (map Page.sample_key questions))
  /\ (~ In (legal_domain s) Utils.get_legal_domains ->
      Page.sidebar selected s = None).
Proof.
  intros S. split.
  - intros D. destruct (list_index_In _ _ D) as [index [I N]].
    destruct (domains_have_questions selected S) as [questions [L [T K]]].
    exists index, questions. unfold Page.sidebar, Utils.get_sample_questions.
    rewrite I, L. cbn. split.
    + destruct (String.eqb_spec selected (legal_domain s)) as [->|_];
        [now destruct s | reflexivity].
    + split; [exact N |]. split; [reflexivity |]. split; [exact T |].
      now apply distinct_NoDup.
  - intros D. unfold Page.sidebar. now rewrite (list_index_not_In _ _ D).
Qed.

Lemma sidebar_listed_domain_witness :
  In "劳动法" Utils.get_legal_domains
  /\ In (legal_domain Main.init_session_state) Utils.get_legal_domains
  /\ exists index questions,
      Page.sidebar "劳动法" Main.init_session_state
      = Some ({| chat_history := [];
                 doc_content := None;
                 consultation_results := [];
                 legal_domain := "劳动法" |}, index, questions)
      /\ nth_error Utils.get_legal_domains index = Some "一般法律咨询"
      /\ lookup "劳动法" Utils.SAMPLE_QUESTIONS = Some questions
      /\ List.length questions = 3
      /\ NoDup (map Page.sample_key questions).
Proof.
  assert (S : In "劳动法" Utils.get_legal_domains) by (right; now left).
  assert (D : In (legal_domain Main.init_session_state)
                Utils.get_legal_domains) by now left.
  split; [exact S |]. split; [exact D |].
  exact (proj1 (sidebar_listed_domain "劳动法" Main.init_session_state S) D).
Defined.

End Sidebar.

(** ** Reading documents *)

Section Reading.

Lemma concat_empty_cons (x : string) (l : list string) :
  String.concat "" (x :: l) = x ++ String.concat "" l.
Proof.
  destruct l as [|y l]; [cbn; now rewrite append_nil_r | reflexivity].
Qed.

Lemma fold_left_append (l : list string) (acc : string) :
  fold_left append l acc = acc ++ String.concat "" l.
Proof.
  revert acc; induction l as [|x l IH]; intros acc.
  - cbn. now rewrite append_nil_r.
  - cbn [fold_left]. rewrite IH, concat_empty_cons. apply append_assoc.
Qed.

(** Every way through the reader, case by case. *)
Ltac reader_cases w doc_file file_type :=
  unfold Main.display_document_content, try_except, bind, lift, show, ret;
  destruct (file_type =? "pdf");
  [ destruct (PDF_SUPPORT w); cbn [negb];
    [ destruct (pdf_page_texts w doc_file) |]
  | destruct (file_type =? "docx");
    [ destruct (DOCX_SUPPORT w); cbn [negb];
      [ destruct (docx_paragraph_texts w doc_file) |]
    | destruct (file_type =? "txt");
      [ destruct (decode_utf8 w doc_file) |] ] ].

Lemma display_document_content_frame (w : world)
  (doc_file : list Byte.byte) (file_type : string) (m : machine) :
  exists r m',
    Main.display_document_content w doc_file file_type m = (Returned r, m')
    /\ session m' = session m
    /\ requests m' = requests m
    /\ stdout m' = stdout m
    /\ (r <> None -> m' = m).
Proof.
  reader_cases w doc_file file_type; eexists _, _;
    (split; [reflexivity |]); cbn; repeat split; congruence.
Qed.

(** X7. The document reader never raises and never touches the session,
    the requests or the output: whatever the file, the type and the
    libraries do, it returns.  When it returns a text it has shown nothing;
    when it returns [None] it has shown nothing (a type it does not know),
    or one warning (a library is missing), or one error that quotes the
    exception of the library. *)
Theorem display_document_content_returns (w : world)
  (doc_file : list Byte.byte) (file_type : string) (m : machine) :
  exists r m',
    Main.display_document_content w doc_file file_type m = (Returned r, m')
    /\ session m' = session m
    /\ requests m' = requests m
    /\ stdout m' = stdout m
    /\ match r with
       | Some _ => page m' = page m
       | None =>
           page m' = page m
           \/ (exists body, page m' = (page m ++ [st_warning body])%list)
           \/ (exists e,
                 page m'
                 = (page m ++ [st_error ("文件解析错误: " ++ str_of_exn e)])%list)
       end.
Proof.
  reader_cases w doc_file file_type; eexists _, _;
    (split; [reflexivity |]); cbn; repeat split;
    solve [ now left | right; left; now eexists | right; right; now eexists ].
Qed.

(** X8. What the reader returns when the library reads the file: the
    texts of the PDF pages one after the other with nothing between them
    (none for a file without pages), the texts of the DOCX paragraphs
    joined by newlines, the decoded text of a txt file as it is. *)
Theorem display_document_content_text (w : world)
  (doc_file : list Byte.byte) (m : machine) (texts : list string)
  (content : string) :
  (PDF_SUPPORT w = true ->
   pdf_page_texts w doc_file = Returned texts ->
   Main.display_document_content w doc_file "pdf" m
   = (Returned (Some (String.concat "" texts)), m))
  /\ (DOCX_SUPPORT w = true ->
      docx_paragraph_texts w doc_file = Returned texts ->
      Main.display_document_content w doc_file "docx" m
      = (Returned (Some (String.concat Str.nl texts)), m))
  /\ (decode_utf8 w doc_file = Returned content ->
      Main.display_document_content w doc_file "txt" m
      = (Returned (Some content), m)).
Proof.
  unfold Main.display_document_content, try_except, bind, lift, ret.
  split; [| split].
  - intros H1 H2. cbn. rewrite H1, H2. cbn. now rewrite fold_left_append.
  - intros H1 H2. cbn. now rewrite H1, H2.
  - intros H. cbn. now rewrite H.
Qed.

Lemma display_document_content_text_witness :
  PDF_SUPPORT (Cases.reading ["第一条 "; "第二条"]) = true
  /\ Main.display_document_content (Cases.reading ["第一条 "; "第二条"])
       [] "pdf" Scenario.start
     = (Returned (Some "第一条 第二条"), Scenario.start)
  /\ Main.display_document_content (Cases.reading ["第一条 "; "第二条"])
       [] "docx" Scenario.start
     = (Returned (Some (String.concat Str.nl ["第一条 "; "第二条"])),
        Scenario.start)
  /\ Main.display_document_content (Cases.reading [])
       [Byte.x61; Byte.x62] "txt" Scenario.start
     = (Returned (Some "ab"), Scenario.start).
Proof.
  split; [reflexivity |].
  destruct (display_document_content_text (Cases.reading ["第一条 "; "第二条"])
              [] Scenario.start ["第一条 "; "第二条"] "")
    as [H1 [H2 _]].
  destruct (display_document_content_text (Cases.reading [])
              [Byte.x61; Byte.x62] Scenario.start [] "ab")
    as [_ [_ H3]].
  split; [exact (H1 eq_refl eq_refl) |].
  split; [exact (H2 eq_refl eq_refl) | exact (H3 eq_refl)].
Defined.

(** X9. When the library that reads the file raises, the reader returns
    [None] and shows the error "文件解析错误: " with the exception's text;
    when the library of a PDF or DOCX file is missing, it returns [None]
    with a warning and does not depend on what reading the file would
    give. *)
Theorem display_document_content_failure (w : world)
  (doc_file : list Byte.byte) (m : machine) (e : exn) :
  let failed :=
    (Returned (@None string),
     {| session := session m;
        page := page m ++ [st_error ("文件解析错误: " ++ str_of_exn e)];
        stdout := stdout m;
        requests := requests m |}) in
  (PDF_SUPPORT w = true -> pdf_page_texts w doc_file = Raised e ->
   Main.display_document_content w doc_file "pdf" m = failed)
  /\ (DOCX_SUPPORT w = true -> docx_paragraph_texts w doc_file = Raised e ->
      Main.display_document_content w doc_file "docx" m = failed)
  /\ (decode_utf8 w doc_file = Raised e ->
      Main.display_document_content w doc_file "txt" m = failed)
  /\ (PDF_SUPPORT w = false ->
      exists body,
        Main.display_document_content w doc_file "pdf" m
        = (Returned None,
           {| session := session m;
              page := page m ++ [st_warning body];
              stdout := stdout m;
              requests := requests m |}))
  /\ (DOCX_SUPPORT w = false ->
      exists body,
        Main.display_document_content w doc_file "docx" m
        = (Returned None,
           {| session := session m;
              page := page m ++ [st_warning body];
              stdout := stdout m;
              requests := requests m |})).
Proof.
  unfold Main.display_document_content, try_except, bind, lift, ret, show.
  cbn. repeat split.
  - intros H1 H2. now rewrite H1, H2.
  - intros H1 H2. now rewrite H1, H2.
  - intros H. now rewrite H.
  - intros H. rewrite H. now eexists.
  - intros H. rewrite H. now eexists.
Qed.

Lemma display_document_content_failure_witness :
  decode_utf8 (Cases.reading []) [Byte.xff]
  = Raised (Exception "'utf-8' codec can't decode the file")
  /\ Main.display_document_content (Cases.reading []) [Byte.xff] "txt"
       Scenario.start
     = (Returned None,
        {| session := session Scenario.start;
           page := [st_error
                      "文件解析错误: 'utf-8' codec can't decode the file"];
           stdout := [];
           requests := [] |})
  /\ exists body,
      Main.display_document_content
        (Scenario.answering "{}") [Byte.x25] "pdf" Scenario.start
      = (Returned None,
         {| session := session Scenario.start;
            page := [st_warning body];
            stdout := [];
            requests := [] |}).
Proof.
  split; [reflexivity |].
  destruct (display_document_content_failure (Cases.reading []) [Byte.xff]
              Scenario.start
              (Exception "'utf-8' codec can't decode the file"))
    as [_ [_ [H3 _]]].
  destruct (display_document_content_failure (Scenario.answering "{}")
              [Byte.x25] Scenario.start (Exception ""))
    as [_ [_ [_ [H4 _]]]].
  split; [exact (H3 eq_refl) | exact (H4 eq_refl)].
Defined.

End Reading.

(** ** Uploading a document *)

Section Upload.

Lemma chars_from_concat (cur s : string) :
  String.concat "" (Str.chars_from cur s) = cur ++ s.
Proof.
  revert cur; induction s as [|c s IH]; intros cur; cbn [Str.chars_from].
  - cbn. now rewrite append_nil_r.
  - destruct (Str.continuation c).
    + rewrite IH. now rewrite append_assoc.
    + rewrite concat_empty_cons, IH. reflexivity.
Qed.

Lemma chars_concat (s : string) : String.concat "" (Str.chars s) = s.
Proof. destruct s as [|c s]; [reflexivity | apply chars_from_concat]. Qed.

Lemma chars_from_nonempty (cur s : string) :
  cur <> "" -> Forall (fun c => c <> "") (Str.chars_from cur s).
Proof.
  revert cur; induction s as [|c s IH]; intros cur H; cbn [Str.chars_from].
  - now constructor.
  - destruct (Str.continuation c).
    + apply IH. now destruct cur.
    + constructor; [exact H | apply IH; discriminate].
Qed.

Lemma chars_nonempty (s : string) : Forall (fun c => c <> "") (Str.chars s).
Proof.
  destruct s as [|c s]; [constructor |]. apply chars_from_nonempty.
  discriminate.
Qed.

Lemma concat_empty_app (l r : list string) :
  String.concat "" (l ++ r) = String.concat "" l ++ String.concat "" r.
Proof.
  induction l as [|x l IH]; [reflexivity |].
  cbn [app]. rewrite !concat_empty_cons, IH. now rewrite append_assoc.
Qed.

(** X10. The preview shows a text of at most 1000 characters whole.  Of a
    longer one it shows a proper beginning, cut between two characters,
    followed by three dots. *)
Theorem preview_beginning (content : string) :
  (List.length (Str.chars content) <= 1000 -> Page.preview content = content)
  /\ (1000 < List.length (Str.chars content) ->
      exists shown rest,
        content = shown ++ rest
        /\ rest <> ""
        /\ shown = String.concat "" (firstn 1000 (Str.chars content))
        /\ Page.preview content = shown ++ "...").
Proof.
  unfold Page.preview. split; intros H.
  - rewrite firstn_all2 by exact H. rewrite chars_concat.
    apply Nat.ltb_ge in H. rewrite H. apply append_nil_r.
  - exists (String.concat "" (firstn 1000 (Str.chars content))),
           (String.concat "" (skipn 1000 (Str.chars content))).
    split; [| split; [| split]].
    + rewrite <- concat_empty_app, firstn_skipn. symmetry. apply chars_concat.
    + pose proof (chars_nonempty content) as F.
      rewrite <- (firstn_skipn 1000 (Str.chars content)) in F.
      apply Forall_app in F as [_ F].
      assert (L : List.length (skipn 1000 (Str.chars content)) <> 0)
        by (rewrite length_skipn; lia).
      destruct (skipn 1000 (Str.chars content)) as [|x l]; [now elim L |].
      rewrite concat_empty_cons. inversion F as [|? ? N _]; subst.
      destruct x; [now elim N | discriminate].
    + reflexivity.
    + apply Nat.ltb_lt in H. now rewrite H.
Qed.

Lemma preview_beginning_witness :
  List.length (Str.chars "第一条 工资") <= 1000
  /\ Page.preview "第一条 工资" = "第一条 工资".
Proof.
  assert (H : List.length (Str.chars "第一条 工资") <= 1000)
    by (vm_compute; repeat constructor).
  split; [exact H | exact (proj1 (preview_beginning "第一条 工资") H)].
Defined.

(** X11. An upload never raises and changes nothing of the session but
    the stored document.  A file read to a text that is not empty replaces
    the stored document and is previewed.  Any other file, one read to the
    empty text included, is refused with the error "无法读取文件内容，请检查
    文件格式", and the document stored before stays in place. *)
Theorem file_uploaded_outcome (py : Page.builtins) (w : world)
  (name : string) (doc_file : list Byte.byte) (m : machine) :
  exists shown m',
    Page.file_uploaded py w name doc_file m = (Returned shown, m')
    /\ chat_history (session m') = chat_history (session m)
    /\ consultation_results (session m') = consultation_results (session m)
    /\ legal_domain (session m') = legal_domain (session m)
    /\ requests m' = requests m
    /\ match shown with
       | Some text =>
           exists content,
             content <> ""
             /\ fst (Main.display_document_content w doc_file
                       (Page.file_type_of py name) m)
                = Returned (Some content)
             /\ doc_content (session m') = Some content
             /\ text = Page.preview content
             /\ page m' = page m
       | None =>
           doc_content (session m') = doc_content (session m)
           /\ exists before,
               page m'
               = (before ++ [st_error "无法读取文件内容，请检查文件格式"])%list
       end.
Proof.
  destruct (display_document_content_frame w doc_file
              (Page.file_type_of py name) m)
    as [r [m1 [E [S [R [_ K]]]]]].
  unfold Page.file_uploaded, bind at 1. rewrite E.
  destruct r as [content|].
  - rewrite (K ltac:(discriminate)) in *.
    destruct (String.eqb_spec content "") as [->|N].
    + eexists _, _. split; [reflexivity |]. cbn. repeat split.
      now eexists.
    + eexists _, _. split; [reflexivity |]. cbn. repeat split.
      exists content. now repeat split.
  - eexists _, _. split; [reflexivity |]. cbn. rewrite S, R.
    repeat split. now eexists.
Qed.

(** X12. A file that is read but holds no text (an empty txt file, a PDF
    without text) is refused like an unreadable one: the error is shown and
    the session is left as it was. *)
Theorem empty_document_refused (py : Page.builtins) (w : world)
  (name : string) (doc_file : list Byte.byte) (m : machine) :
  fst (Main.display_document_content w doc_file (Page.file_type_of py name) m)
  = Returned (Some "") ->
  Page.file_uploaded py w name doc_file m
  = (Returned None,
     {| session := session m;
        page := page m ++ [st_error "无法读取文件内容，请检查文件格式"];
        stdout := stdout m;
        requests := requests m |}).
Proof.
  intros H.
  destruct (display_document_content_frame w doc_file
              (Page.file_type_of py name) m)
    as [r [m1 [E [_ [_ [_ K]]]]]].
  rewrite E in H. cbn in H. injection H as ->.
  rewrite (K ltac:(discriminate)) in E.
  unfold Page.file_uploaded, bind at 1. now rewrite E.
Qed.

Lemma empty_document_refused_witness :
  Page.file_type_of Cases.python "空白.TXT" = "txt"
  /\ fst (Main.display_document_content (Scenario.answering "{}") []
            (Page.file_type_of Cases.python "空白.TXT") Cases.with_document)
     = Returned (Some "")
  /\ Page.file_uploaded Cases.python (Scenario.answering "{}") "空白.TXT" []
       Cases.with_document
     = (Returned None,
        {| session := session Cases.with_document;
           page := [st_error "无法读取文件内容，请检查文件格式"];
           stdout := [];
           requests := [] |}).
Proof.
  split; [reflexivity |]. split; [reflexivity |].
  exact (empty_document_refused Cases.python (Scenario.answering "{}")
           "空白.TXT" [] Cases.with_document eq_refl).
Defined.

End Upload.

(** ** The three buttons *)

Section Buttons.
Local Open Scope prog_scope.

(** A consultation and its saving, as the three tabs do them. *)
Lemma consult_and_save (w : world) (full_query consult_type : string)
  (item_of : value -> history_item) (m : machine) :
  exists result m' sent head,
    (result <-
       Utils.legal_agent w full_query consult_type (legal_domain (session m)) ;;
     Main.append_history (item_of result) ;;
     ret (Some result)) m
    = (Returned (Some result), m')
    /\ fst (Utils.legal_agent w full_query consult_type
              (legal_domain (session m)) m)
       = Returned result
    /\ session m'
       = {| chat_history := chat_history (session m) ++ [item_of result];
            doc_content := doc_content (session m);
            consultation_results := consultation_results (session m);
            legal_domain := legal_domain (session m) |}
    /\ requests m' = (requests m ++ sent)%list
    /\ List.length sent <= 1
    /\ (forall r, In r sent ->
         prompt r = head ++ "用户问题: " ++ full_query ++ Str.nl)
    /\ stdout m' = stdout m.
Proof.
  destruct (legal_agent_trace w full_query consult_type
              (legal_domain (session m)) m)
    as [result [m1 [key [base [m0 [text [_ [C [A [R [O S]]]]]]]]]]].
  destruct compose_shape as [a [b [c E]]].
  rewrite E in C. injection C as C.
  exists result. eexists.
  exists (if truthy key then [Utils.chat_request key base text] else []).
  exists (a ++ consult_type ++ b ++ legal_domain (session m) ++ c).
  unfold bind at 1. rewrite A.
  unfold Main.append_history, bind, get_session, put_session, ret.
  split; [reflexivity |]. cbn. rewrite S, R, O.
  split; [reflexivity |]. split; [reflexivity |]. split; [reflexivity |].
  split; [destruct (truthy key); cbn; lia |]. split; [| reflexivity].
  intros r I. destruct (truthy key); [| destruct I].
  destruct I as [<- | []]. cbn. rewrite <- C. now rewrite !append_assoc.
Qed.

(** X13. The first tab's button.  Without a question it only warns.  With
    one it asks the agent once and appends one item that holds the question,
    the time and whatever the agent returned, an error answer included; the
    stored document, the domain and the output are left alone. *)
Theorem basic_info_button_outcome (w : world) (query timestamp : string)
  (m : machine) :
  Main.basic_info_button w "" timestamp m
  = (Returned None,
     {| session := session m;
        page := page m ++ [st_warning "请输入您的咨询问题"];
        stdout := stdout m;
        requests := requests m |})
  /\ (query <> "" ->
      exists result m' sent head,
        Main.basic_info_button w query timestamp m
        = (Returned (Some result), m')
        /\ fst (Utils.legal_agent w query "基本法律信息"
                  (legal_domain (session m)) m)
           = Returned result
        /\ session m'
           = {| chat_history :=
                  chat_history (session m)
                  ++ [{| item_type := "基本法律信息";
                         item_query := query;
                         item_document := None;
                         item_case_details := None;
                         item_result := result;
                         item_timestamp := timestamp |}];
                doc_content := doc_content (session m);
                consultation_results := consultation_results (session m);
                legal_domain := legal_domain (session m) |}
        /\ requests m' = (requests m ++ sent)%list
        /\ List.length sent <= 1
        /\ (forall r, In r sent ->
             prompt r = head ++ "用户问题: " ++ query ++ Str.nl)
        /\ stdout m' = stdout m).
Proof.
  split; [reflexivity |]. intros Q. apply String.eqb_neq in Q.
  unfold Main.basic_info_button. rewrite Q.
  unfold bind at 1, get_session at 1.
  apply (consult_and_save w query "基本法律信息"
           (fun result => Main.basic_item query result timestamp) m).
Qed.

Lemma basic_info_button_outcome_witness :
  "加班费如何计算？" <> ""
  /\ exists result m',
      Main.basic_info_button
        (Scenario.world_of Scenario.no_secret (Returned []) (Returned "{}"))
        "加班费如何计算？" Scenario.clock Scenario.start
      = (Returned (Some result), m')
      /\ List.length (chat_history (session m')) = 1.
Proof.
  assert (Q : "加班费如何计算？" <> "") by discriminate.
  split; [exact Q |].
  destruct (proj2 (basic_info_button_outcome
                     (Scenario.world_of Scenario.no_secret (Returned [])
                        (Returned "{}"))
                     "加班费如何计算？" Scenario.clock Scenario.start) Q)
    as [result [m' [sent [head [H1 [_ [H3 _]]]]]]].
  exists result, m'. split; [exact H1 |]. now rewrite H3.
Defined.






End Buttons.

(** ** The download link *)

Section Link.

Ltac div_lia := zify; Z.to_euclidean_division_equations; lia.

Lemma digit_value (n : N) :
  (n < 64)%N ->
  Base64.value_of (Base64.digit n) = Some n
  /\ Ascii.eqb (Base64.digit n) Base64.pad = false.
Proof.
  intros H.
  assert (F : forallb
                (fun k =>
                   match Base64.value_of (Base64.digit (N.of_nat k)) with
                   | Some v => N.eqb v (N.of_nat k)
                   | None => false
                   end
                   && negb (Ascii.eqb (Base64.digit (N.of_nat k)) Base64.pad))
                (seq 0 64) = true) by (vm_compute; reflexivity).
  rewrite forallb_forall in F.
  specialize (F (N.to_nat n)). rewrite N2Nat.id in F.
  assert (I : In (N.to_nat n) (seq 0 64)) by (apply in_seq; lia).
  apply F in I. apply andb_true_iff in I as [I1 I2].
  destruct (Base64.value_of (Base64.digit n)) as [v|]; [| discriminate].
  apply N.eqb_eq in I1. subst v. split; [reflexivity |].
  now apply negb_true_iff.
Qed.

Lemma string_ind3 (P : string -> Prop) :
  P "" ->
  (forall a, P (String a "")) ->
  (forall a b, P (String a (String b ""))) ->
  (forall a b c r, P r -> P (String a (String b (String c r)))) ->
  forall s, P s.
Proof.
  intros H0 H1 H2 H3 s.
  assert (Q : P s /\ (forall a, P (String a s))
              /\ (forall a b, P (String a (String b s)))).
  { induction s as [|c s [IH0 [IH1 IH2]]].
    - now repeat split.
    - repeat split; [apply IH1 | intros a; apply IH2 |].
      intros a b. now apply H3. }
  apply Q.
Qed.

(** The byte computed from the digits is the byte encoded. *)
Ltac byte_back a :=
  transitivity (ascii_of_N (N_of_ascii a));
  [f_equal; div_lia | apply ascii_N_embedding].

Lemma b64decode_b64encode (s : string) :
  Base64.b64decode (Base64.b64encode s) = Some s.
Proof.
  induction s as [| a | a b | a b c r IH] using string_ind3.
  - reflexivity.
  - pose proof (N_ascii_bounded a) as Ba.
    cbn [Base64.b64encode Base64.b64decode].
    destruct (digit_value (N_of_ascii a / 4)) as [-> _]; [div_lia |].
    destruct (digit_value (N_of_ascii a mod 4 * 16)) as [-> _]; [div_lia |].
    cbn. unfold Base64.bytes1. do 2 f_equal. byte_back a.
  - pose proof (N_ascii_bounded a) as Ba. pose proof (N_ascii_bounded b) as Bb.
    cbn [Base64.b64encode Base64.b64decode].
    destruct (digit_value (N_of_ascii a / 4)) as [-> _]; [div_lia |].
    destruct (digit_value (N_of_ascii a mod 4 * 16 + N_of_ascii b / 16))
      as [-> _]; [div_lia |].
    destruct (digit_value (N_of_ascii b mod 16 * 4)) as [-> ->]; [div_lia |].
    cbn. unfold Base64.bytes2. f_equal.
    f_equal; [byte_back a |]. f_equal. byte_back b.
  - pose proof (N_ascii_bounded a) as Ba. pose proof (N_ascii_bounded b) as Bb.
    pose proof (N_ascii_bounded c) as Bc.
    cbn [Base64.b64encode Base64.b64decode].
    destruct (digit_value (N_of_ascii a / 4)) as [-> _]; [div_lia |].
    destruct (digit_value (N_of_ascii a mod 4 * 16 + N_of_ascii b / 16))
      as [-> _]; [div_lia |].
    destruct (digit_value (N_of_ascii b mod 16 * 4 + N_of_ascii c / 64))
      as [-> ->]; [div_lia |].
    destruct (digit_value (N_of_ascii c mod 64)) as [-> ->]; [div_lia |].
    rewrite IH. unfold Base64.bytes3. cbn [append]. f_equal.
    f_equal; [byte_back a |]. f_equal; [byte_back b |].
    f_equal. byte_back c.
Qed.

Lemma digit_in_alphabet (n : N) :
  (n < 64)%N ->
  Base64.value_of (Base64.digit n) <> None \/ Base64.digit n = Base64.pad.
Proof.
  intros H. left. destruct (digit_value n H) as [-> _]. discriminate.
Qed.

Lemma b64encode_alphabet (s : string) :
  Forall (fun c => Base64.value_of c <> None \/ c = Base64.pad)
    (list_ascii_of_string (Base64.b64encode s)).
Proof.
  induction s as [| a | a b | a b c r IH] using string_ind3.
  - constructor.
  - pose proof (N_ascii_bounded a) as Ba.
    cbn [Base64.b64encode list_ascii_of_string].
    do 2 (apply Forall_cons; [apply digit_in_alphabet; div_lia |]).
    do 2 (apply Forall_cons; [now right |]). apply Forall_nil.
  - pose proof (N_ascii_bounded a) as Ba. pose proof (N_ascii_bounded b) as Bb.
    cbn [Base64.b64encode list_ascii_of_string].
    do 3 (apply Forall_cons; [apply digit_in_alphabet; div_lia |]).
    apply Forall_cons; [now right | apply Forall_nil].
  - pose proof (N_ascii_bounded a) as Ba. pose proof (N_ascii_bounded b) as Bb.
    pose proof (N_ascii_bounded c) as Bc.
    cbn [Base64.b64encode list_ascii_of_string].
    do 4 (apply Forall_cons; [apply digit_in_alphabet; div_lia |]). exact IH.
Qed.

Lemma b64encode_length (s : string) :
  String.length (Base64.b64encode s) = 4 * ((String.length s + 2) / 3).
Proof.
  induction s as [| a | a b | a b c r IH] using string_ind3;
    try reflexivity.
  cbn [Base64.b64encode String.length]. rewrite IH.
  replace (S (S (S (String.length r))) + 2)
    with (String.length r + 2 + 1 * 3) by lia.
  rewrite Nat.div_add by discriminate. lia.
Qed.

(** X16. The download link carries the report whole: the text between
    "base64," and the closing quote of [href] decodes to the text given,
    byte for byte; it is made of base64 digits and padding only, so that no
    text can close the attribute early, and has four characters for every
    three bytes begun.  A text with a lone surrogate has no link:
    [text.encode()] raises. *)
Theorem get_download_link_carries_text (text filename label : string) :
  (Page.encodable text = true ->
   exists payload,
     Page.get_download_link text filename label
     = Some (Str.text "<a href=`data:file/txt;base64," ++ payload
               ++ Str.text "` download=`" ++ filename ++ Str.text "`>📄 "
               ++ label ++ "</a>")
     /\ Base64.b64decode payload = Some text
     /\ Forall (fun c => Base64.value_of c <> None \/ c = Base64.pad)
          (list_ascii_of_string payload)
     /\ String.length payload = 4 * ((String.length text + 2) / 3))
  /\ (Page.encodable text = false ->
      Page.get_download_link text filename label = None).
Proof.
  unfold Page.get_download_link. split; intros H; rewrite H; [| reflexivity].
  exists (Base64.b64encode text). split; [reflexivity |].
  split; [apply b64decode_b64encode |].
  split; [apply b64encode_alphabet | apply b64encode_length].
Qed.

Lemma get_download_link_carries_text_witness :
  Page.encodable "法律咨询报告" = true
  /\ exists payload,
      Page.get_download_link "法律咨询报告" "法律咨询报告.txt" "下载分析报告"
      = Some (Str.text "<a href=`data:file/txt;base64," ++ payload
                ++ Str.text "` download=`" ++ "法律咨询报告.txt"
                ++ Str.text "`>📄 " ++ "下载分析报告" ++ "</a>")
      /\ Base64.b64decode payload = Some "法律咨询报告"
      /\ String.length payload = 24.
Proof.
  split; [reflexivity |].
  destruct (proj1 (get_download_link_carries_text "法律咨询报告"
                     "法律咨询报告.txt" "下载分析报告") eq_refl)
    as [payload [H1 [H2 [_ H4]]]].
  exists payload. split; [exact H1 |]. split; [exact H2 | exact H4].
Defined.

End Link.

(** ** Showing the history *)

Section Showing.

Lemma last_five {A : Type} (h : list A) :
  rev (slice_from (-5) h) = firstn 5 (rev h).
Proof.
  rewrite firstn_rev. f_equal. unfold slice_from.
  replace (-5 <? 0)%Z with true by reflexivity. f_equal. lia.
Qed.

Lemma sequence_None {A : Type} (l : list (option A)) :
  In None l -> sequence l = None.
Proof.
  induction l as [|[a|] l IH]; [intros [] | | reflexivity].
  intros [H | H]; [discriminate |]. cbn. now rewrite IH.
Qed.

Lemma sequence_Forall2 {A B : Type} (f : A -> option B) (R : A -> B -> Prop)
  (l : list A) :
  (forall x, In x l -> exists y, f x = Some y /\ R x y) ->
  exists ys, sequence (map f l) = Some ys /\ Forall2 R l ys.
Proof.
  induction l as [|x l IH]; intros H.
  - exists []. now split.
  - destruct (H x (or_introl eq_refl)) as [y [E1 E2]].
    destruct IH as [ys [E3 E4]]; [intros z I; apply H; now right |].
    exists (y :: ys). cbn. rewrite E1, E3. split; [reflexivity |].
    now constructor.
Qed.

Lemma enumerate_In {A : Type} (x : A) (l : list A) (k : nat) :
  In x l -> exists i, In (i, x) (enumerate k l).
Proof.
  revert k; induction l as [|y l IH]; intros k; [intros [] |].
  intros [-> | H].
  - exists k. now left.
  - destruct (IH (S k) H) as [i I]. exists i. now right.
Qed.

Lemma enumerate_snd {A : Type} (p : nat * A) (l : list A) (k : nat) :
  In p (enumerate k l) -> In (snd p) l.
Proof.
  revert k; induction l as [|y l IH]; intros k; [intros [] |].
  intros [<- | H]; [now left | right; now apply (IH (S k))].
Qed.

Lemma enumerate_length {A : Type} (l : list A) (k : nat) :
  List.length (enumerate k l) = List.length l.
Proof.
  revert k; induction l as [|y l IH]; intros k; [reflexivity |].
  cbn. now rewrite IH.
Qed.

Lemma In_firstn_middle {A : Type} (x : A) (a b : list A) (n : nat) :
  List.length a < n -> In x (firstn n (a ++ x :: b)).
Proof.
  revert n; induction a as [|y a IH]; intros n H.
  - destruct n; [lia | now left].
  - destruct n; [cbn in H; lia |]. right. apply IH. cbn in H. lia.
Qed.

Lemma history_entry_not_dict (py : Page.builtins) (w : world) (i : nat)
  (item : history_item) :
  (forall d, item_result item <> PDict d) ->
  Page.history_entry py w i item = None.
Proof.
  intros H. unfold Page.history_entry.
  destruct (item_result item); try reflexivity. now elim (H d).
Qed.

Lemma history_section_not_dict (py : Page.builtins) (w : world)
  (s : session_state) (item : history_item) :
  In item (firstn 5 (rev (chat_history s))) ->
  (forall d, item_result item <> PDict d) ->
  Page.history_section py w s = None.
Proof.
  intros I H. unfold Page.history_section.
  destruct (chat_history s) as [|x h] eqn:E; [destruct I |].
  rewrite <- E in *. rewrite last_five.
  destruct (enumerate_In item _ 0 I) as [i J].
  rewrite (sequence_None
             (map (fun p => Page.history_entry py w (fst p) (snd p))
                (enumerate 0 (firstn 5 (rev (chat_history s)))))).
  - reflexivity.
  - apply in_map_iff. exists (i, item). split; [| exact J].
    now apply history_entry_not_dict.
Qed.

(** X17. An item whose result is not a dict makes the history section
    raise, and goes on doing so while it is among the five latest: until
    five newer items are saved, or the history is cleared. *)
Theorem history_section_raises (py : Page.builtins) (w : world)
  (s : session_state) (before later : list history_item)
  (item : history_item) :
  chat_history s = (before ++ item :: later)%list ->
  List.length later <= 4 ->
  (forall d, item_result item <> PDict d) ->
  Page.history_section py w s = None
  /\ Page.history_section py w
       {| chat_history := [];
          doc_content := doc_content s;
          consultation_results := [];
          legal_domain := legal_domain s |}
     = Some [].
Proof.
  intros E L H. split; [| reflexivity].
  apply (history_section_not_dict py w s item); [| exact H].
  rewrite E, rev_app_distr. cbn [rev]. rewrite <- app_assoc. cbn [app].
  apply In_firstn_middle. rewrite length_rev. lia.
Qed.

Lemma history_section_raises_witness :
  (forall d, PList [] <> PDict d)
  /\ Page.history_section Cases.python (Scenario.answering "[]") Cases.broken
     = None.
Proof.
  assert (H : forall d, PList [] <> PDict d) by discriminate.
  split; [exact H |].
  exact (proj1 (history_section_raises Cases.python (Scenario.answering "[]")
                  Cases.broken []
                  [Main.basic_item "加班费如何计算？" Scenario.strategy
                     Scenario.clock]
                  (Main.basic_item "加班费如何计算？" (PList [])
                     Scenario.clock)
                  eq_refl ltac:(cbn; lia) H)).
Defined.

(** X18. A reply that is JSON but not an object is saved before the tab
    reads it: the first tab appends the item and then raises on
    [result.get], and the history section raises as well. *)
Theorem reply_not_an_object (py : Page.builtins) (w : world)
  (query timestamp text response : string) (m m1 : machine)
  (key : option string) (base : string) (v : value) :
  query <> "" ->
  Utils.get_api_credentials w m = (Returned (key, base), m1) ->
  truthy key = true ->
  Utils.compose query "基本法律信息" (legal_domain (session m)) = Some text ->
  chain_run w (Utils.chat_request key base text) = Returned response ->
  json_loads w response = JSON.Decoded v ->
  (forall d, v <> PDict d) ->
  exists m',
    Main.basic_info_button w query timestamp m = (Returned (Some v), m')
    /\ chat_history (session m')
       = (chat_history (session m)
          ++ [Main.basic_item query v timestamp])%list
    /\ Page.basic_display py w timestamp (legal_domain (session m)) query v
       = None
    /\ Page.history_section py w (session m') = None.
Proof.
  intros Q H1 H2 H3 H4 H5 N.
  destruct (basic_info_button_saves w query timestamp m Q)
    as [result [m0 [m' [A [B C]]]]].
  rewrite (legal_agent_with_key w query "基本法律信息"
             (legal_domain (session m)) text m m1 key base H1 H2 H3) in A.
  rewrite H4, H5 in A. injection A as <- _.
  exists m'. split; [exact B |]. split; [exact C |]. split.
  - unfold Page.basic_display. destruct v; try reflexivity. now elim (N d).
  - apply (history_section_not_dict py w (session m')
             (Main.basic_item query v timestamp)); [| exact N].
    rewrite C, rev_app_distr. now left.
Qed.

Lemma reply_not_an_object_witness :
  json_loads (Scenario.answering "[]") "[]" = JSON.Decoded (PList [])
  /\ exists m',
      Main.basic_info_button (Scenario.answering "[]") "加班费如何计算？"
        Scenario.clock Scenario.start
      = (Returned (Some (PList [])), m')
      /\ Page.basic_display Cases.python (Scenario.answering "[]")
           Scenario.clock "一般法律咨询" "加班费如何计算？" (PList [])
         = None
      /\ Page.history_section Cases.python (Scenario.answering "[]")
           (session m')
         = None.
Proof.
  split; [reflexivity |].
  destruct (compose_total "加班费如何计算？" "基本法律信息" "一般法律咨询")
    as [text C].
  destruct (reply_not_an_object Cases.python (Scenario.answering "[]")
              "加班费如何计算？" Scenario.clock text "[]"
              Scenario.start Scenario.start (Some "sk-test")
              Spec.default_api_base (PList [])
              ltac:(discriminate) eq_refl eq_refl C eq_refl eq_refl
              ltac:(discriminate))
    as [m' [H1 [_ [H3 H4]]]].
  exists m'. split; [exact H1 |]. split; [exact H3 | exact H4].
Defined.

Lemma history_entry_dict (py : Page.builtins) (w : world) (i : nat)
  (item : history_item) (d : list (string * value)) :
  item_result item = PDict d ->
  (forall k v, In k ["steps"; "references"] ->
               lookup k d = Some v -> iter v <> None) ->
  exists body,
    Page.history_entry py w i item
    = Some (Page.expander (item_timestamp item ++ " - " ++ item_type item)
              (i =? 0)%nat body).
Proof.
  intros E H. unfold Page.history_entry. rewrite E.
  assert (S : exists steps,
             (if Page.present py "steps" d
              then match Page.step_items w d with
                   | Some items =>
                       Some (Page.markdown (PStr "**建议步骤**:") :: items)
                   | None => None
                   end
              else Some []) = Some steps).
  { unfold Page.present, Page.step_items.
    destruct (lookup "steps" d) as [v|] eqn:L; [| now eexists].
    destruct (Page.bool_of py v); [| now eexists].
    specialize (H "steps" v (or_introl eq_refl) L).
    destruct (iter v); [now eexists | now elim H]. }
  assert (R : exists references,
             (if Page.present py "references" d
              then match Page.reference_items w d with
                   | Some items =>
                       Some (Page.markdown (PStr "**法律参考**:") :: items)
                   | None => None
                   end
              else Some []) = Some references).
  { unfold Page.present, Page.reference_items.
    destruct (lookup "references" d) as [v|] eqn:L; [| now eexists].
    destruct (Page.bool_of py v); [| now eexists].
    specialize (H "references" v (or_intror (or_introl eq_refl)) L).
    destruct (iter v); [now eexists | now elim H]. }
  destruct S as [steps ->]. destruct R as [references ->]. now eexists.
Qed.

(** X19. When the results of the five latest items are dicts whose steps
    and references, if any, can be gone through, the history section shows
    its title and one expander per item, the latest first: five at most,
    each labelled with the item's time and type, and only the first one
    open. *)
Theorem history_section_entries (py : Page.builtins) (w : world)
  (s : session_state) :
  chat_history s <> [] ->
  (forall item,
      In item (firstn 5 (rev (chat_history s))) ->
      exists d,
        item_result item = PDict d
        /\ forall k v, In k ["steps"; "references"] ->
                       lookup k d = Some v -> iter v <> None) ->
  exists entries,
    Page.history_section py w s
    = Some (Page.html (Str.text "<p class=`sub-header`>咨询历史记录</p>")
              :: entries)
    /\ List.length entries = Nat.min 5 (List.length (chat_history s))
    /\ Forall2
         (fun p entry =>
            exists body,
              entry
              = Page.expander
                  (item_timestamp (snd p) ++ " - " ++ item_type (snd p))
                  (fst p =? 0)%nat body)
         (enumerate 0 (firstn 5 (rev (chat_history s)))) entries.
Proof.
  intros N H. unfold Page.history_section.
  destruct (chat_history s) as [|x h] eqn:E; [now elim N |].
  rewrite <- E in *. rewrite last_five.
  destruct (sequence_Forall2
              (fun p => Page.history_entry py w (fst p) (snd p))
              (fun p entry =>
                 exists body,
                   entry
                   = Page.expander
                       (item_timestamp (snd p) ++ " - " ++ item_type (snd p))
                       (fst p =? 0)%nat body)
              (enumerate 0 (firstn 5 (rev (chat_history s)))))
    as [entries [S F]].
  - intros p I. destruct (H (snd p) (enumerate_snd p _ 0 I)) as [d [R K]].
    destruct (history_entry_dict py w (fst p) (snd p) d R K) as [body B].
    eexists. split; [exact B | now exists body].
  - exists entries. rewrite S. split; [reflexivity |]. split; [| exact F].
    rewrite <- (Forall2_length F), enumerate_length, length_firstn, length_rev.
    reflexivity.
Qed.

Lemma history_section_entries_witness :
  exists entries,
    Page.history_section Cases.python (Scenario.answering "{}")
      {| chat_history :=
           [Main.case_item "公司在试用期内辞退员工" "如何维权"
              Scenario.strategy Scenario.clock];
         doc_content := None;
         consultation_results := [];
         legal_domain := "劳动法" |}
    = Some (Page.html (Str.text "<p class=`sub-header`>咨询历史记录</p>")
              :: entries)
    /\ List.length entries = 1.
Proof.
  destruct (history_section_entries Cases.python (Scenario.answering "{}")
              {| chat_history :=
                   [Main.case_item "公司在试用期内辞退员工" "如何维权"
                      Scenario.strategy Scenario.clock];
                 doc_content := None;
                 consultation_results := [];
                 legal_domain := "劳动法" |})
    as [entries [H1 [H2 _]]].
  - discriminate.
  - intros item [<- | []]. eexists. split; [reflexivity |].
    intros k v [<- | [<- | []]] [= <-]; discriminate.
  - exists entries. split; [exact H1 | exact H2].
Defined.

(** X20. A saved item is the first the history section goes through,
    followed by the four latest of the items saved before; the section goes
    through five items at most. *)
Theorem newest_item_first (item : history_item) (m : machine) :
  exists m1,
    Main.append_history item m = (Returned tt, m1)
    /\ Main.displayed_history m1
       = (Returned (item :: firstn 4 (rev (chat_history (session m)))), m1)
    /\ List.length (item :: firstn 4 (rev (chat_history (session m)))) <= 5.
Proof.
  eexists. split; [reflexivity |]. split.
  - rewrite displayed_history_last_five. cbn [snd session chat_history].
    now rewrite rev_app_distr.
  - cbn [List.length]. pose proof (firstn_le_length 4
                                     (rev (chat_history (session m)))). lia.
Qed.

End Showing.

(** ** What the reports read *)

Section ReportInputs.

Lemma sequence_map_None {A B : Type} (f : A -> option B) (l : list A) :
  sequence (map f l) = None <-> exists x, In x l /\ f x = None.
Proof.
  induction l as [|x l IH]; cbn [map sequence].
  - split; [discriminate | intros [x [[] _]]].
  - destruct (f x) as [y|] eqn:E.
    + destruct (sequence (map f l)) as [ys|] eqn:S.
      * split; [discriminate |]. intros [z [[<- | I] F]]; [congruence |].
        assert (K : exists x, In x l /\ f x = None) by now exists z.
        apply IH in K. discriminate.
      * split; [| reflexivity]. intros _.
        destruct (proj1 IH eq_refl) as [z [I F]]. exists z. split; [now right | exact F].
    + split; [| reflexivity]. intros _. exists x. split; [now left | exact E].
Qed.

Lemma add_str_None (prefix : string) (x : value) :
  add_str prefix x = None <-> forall t, x <> PStr t.
Proof.
  destruct x; cbn; split; try discriminate; try reflexivity.
  intros H. now elim (H s).
Qed.

Lemma reference_lines_None (reply : list (string * value)) :
  Main.reference_lines (PDict reply) = None
  <-> exists v,
      lookup "references" reply = Some v
      /\ (iter v = None
          \/ exists l x, iter v = Some l /\ In x l /\ forall t, x <> PStr t).
Proof.
  unfold Main.reference_lines. cbn [get].
  destruct (lookup "references" reply) as [v|].
  - destruct (iter v) as [l|] eqn:E.
    + rewrite sequence_map_None. split.
      * intros [x [I F]]. exists v. split; [reflexivity |]. right.
        exists l, x. split; [exact E |]. split; [exact I |].
        exact (proj1 (add_str_None "- " x) F).
      * intros [v' [[= <-] [F | [l' [x [F [I N]]]]]]]; [congruence |].
        rewrite E in F. injection F as <-. exists x. split; [exact I |].
        exact (proj2 (add_str_None "- " x) N).
    + split; [| reflexivity]. intros _. exists v. split; [reflexivity | now left].
  - cbn. split; [discriminate | intros [v [F _]]; discriminate].
Qed.

(** X21. Building the first tab's report raises exactly when the result
    holds references that cannot be gone through or hold something that is
    not a text: null, a number, a list with a number.  References that are
    one text are listed character by character. *)
Theorem basic_report_raises (w : world) (timestamp legal_domain query : string)
  (reply : list (string * value)) :
  (Main.basic_report w timestamp legal_domain query (PDict reply) = None
   <-> exists v,
       lookup "references" reply = Some v
       /\ (iter v = None
           \/ exists l x,
                iter v = Some l /\ In x l /\ forall t, x <> PStr t))
  /\ (forall t,
        lookup "references" reply = Some (PStr t) ->
        Main.reference_lines (PDict reply)
        = Some (map (append "- ") (Str.chars t))).
Proof.
  split.
  - rewrite <- reference_lines_None. unfold Main.basic_report. cbn [get].
    destruct (Main.reference_lines (PDict reply)); split;
      solve [discriminate | reflexivity].
  - intros t H. unfold Main.reference_lines. cbn [get]. rewrite H.
    cbn [iter]. apply sequence_add_str.
Qed.

Lemma basic_report_raises_witness :
  lookup "references" [("answer", PStr "可以。"); ("references", PNone)]
  = Some PNone
  /\ Main.basic_report (Scenario.answering "{}") Scenario.clock "劳动法"
       "加班费如何计算？"
       (PDict [("answer", PStr "可以。"); ("references", PNone)])
     = None
  /\ Main.reference_lines (PDict [("references", PStr "民法典")])
     = Some ["- 民"; "- 法"; "- 典"].
Proof.
  split; [reflexivity |].
  destruct (basic_report_raises (Scenario.answering "{}") Scenario.clock
              "劳动法" "加班费如何计算？"
              [("answer", PStr "可以。"); ("references", PNone)])
    as [H1 _].
  destruct (basic_report_raises (Scenario.answering "{}") Scenario.clock
              "劳动法" "加班费如何计算？" [("references", PStr "民法典")])
    as [_ H2].
  split.
  - apply H1. exists PNone. split; [reflexivity | now left].
  - exact (H2 "民法典" eq_refl).
Defined.

(** X22. The reports of the first two tabs read the answer and the
    references of the result and nothing else: two results that agree on
    these two fields give the same report, so that steps, if the reply has
    any, are left out. *)
Theorem reports_read_two_fields (w : world)
  (timestamp legal_domain query : string) (doc_name : option string)
  (r1 r2 : list (string * value)) :
  lookup "answer" r1 = lookup "answer" r2 ->
  lookup "references" r1 = lookup "references" r2 ->
  Main.basic_report w timestamp legal_domain query (PDict r1)
  = Main.basic_report w timestamp legal_domain query (PDict r2)
  /\ Main.document_report w timestamp doc_name query (PDict r1)
     = Main.document_report w timestamp doc_name query (PDict r2).
Proof.
  intros A R.
  unfold Main.basic_report, Main.document_report, Main.reference_lines.
  cbn [get]. now rewrite A, R.
Qed.

Lemma reports_read_two_fields_witness :
  Main.basic_report (Scenario.answering "{}") Scenario.clock "劳动法"
    "如何维权" Scenario.strategy
  = Main.basic_report (Scenario.answering "{}") Scenario.clock "劳动法"
      "如何维权"
      (PDict [("answer", PStr "可以申请劳动仲裁。");
              ("references", PList [PStr "《劳动合同法》第48条"])]).
Proof.
  exact (proj1 (reports_read_two_fields (Scenario.answering "{}")
                  Scenario.clock "劳动法" "如何维权" None
                  [("answer", PStr "可以申请劳动仲裁。");
                   ("steps", PList [PStr "收集证据"; PStr "申请仲裁"]);
                   ("references", PList [PStr "《劳动合同法》第48条"])]
                  [("answer", PStr "可以申请劳动仲裁。");
                   ("references", PList [PStr "《劳动合同法》第48条"])]
                  eq_refl eq_refl)).
Defined.

End ReportInputs.

(** ** What the tabs show *)

Section TabDisplay.

Lemma reference_expander_texts (py : Page.builtins) (w : world)
  (reply : list (string * value)) (references : list string) :
  Spec.texts_under reply "references" references ->
  Page.reference_expander py w reply
  = Some match references with
         | [] => []
         | _ :: _ =>
             [Page.expander "法律参考" true
                (map (fun r => Page.markdown (PStr ("- " ++ r))) references)]
         end.
Proof.
  unfold Page.reference_expander, Page.present, Page.reference_items.
  intros [[-> ->] | ->]; [reflexivity |].
  destruct references as [|r l]; [reflexivity |].
  cbn [map Page.bool_of iter]. do 3 f_equal. rewrite map_map. reflexivity.
Qed.

Lemma numbered_texts (w : world) (k : nat) (l : list string) :
  map (fun p => Page.markdown
                  (PStr (Str.of_nat (fst p) ++ ". " ++ str w (snd p))))
    (enumerate k (map PStr l))
  = map (fun p => Page.markdown (PStr (Str.of_nat (fst p) ++ ". " ++ snd p)))
      (enumerate k l).
Proof.
  revert k; induction l as [|x l IH]; intros k; [reflexivity |].
  cbn [map enumerate fst snd Run.str]. now rewrite IH.
Qed.

Lemma step_list_texts (py : Page.builtins) (w : world)
  (reply : list (string * value)) (steps : list string) :
  Spec.texts_under reply "steps" steps ->
  Page.step_list py w reply
  = Some match steps with
         | [] => []
         | _ :: _ =>
             Page.markdown (PStr "### 建议步骤")
             :: map (fun p => Page.markdown
                                (PStr (Str.of_nat (fst p) ++ ". " ++ snd p)))
                  (enumerate 1 steps)
         end.
Proof.
  unfold Page.step_list, Page.present, Page.step_items.
  intros [[-> ->] | ->]; [reflexivity |].
  destruct steps as [|r l]; [reflexivity |].
  cbn [Page.bool_of iter map]. do 2 f_equal.
  apply (numbered_texts w 1 (r :: l)).
Qed.

(** X23. For a result whose references and steps are lists of texts, and
    reports that can be encoded, each tab shows its heading, the answer as
    the result holds it, the steps (third tab) and the references when
    there are any, and last the link built from its own report. *)
Theorem tabs_show_result (py : Page.builtins) (w : world)
  (timestamp legal_domain query doc_query case_details case_query : string)
  (doc_name : option string) (reply : list (string * value))
  (references steps : list string) :
  Spec.texts_under reply "references" references ->
  Spec.texts_under reply "steps" steps ->
  (forall report,
      In (Some report)
        [Main.basic_report w timestamp legal_domain query (PDict reply);
         Main.document_report w timestamp doc_name doc_query (PDict reply);
         Main.case_report w timestamp legal_domain case_details case_query
           (PDict reply)] ->
      Page.encodable report = true) ->
  let answer :=
    Page.markdown match lookup "answer" reply with
                  | Some v => v
                  | None => PStr ""
                  end in
  let shown_references :=
    match references with
    | [] => []
    | _ :: _ =>
        [Page.expander "法律参考" true
           (map (fun r => Page.markdown (PStr ("- " ++ r))) references)]
    end in
  let shown_steps :=
    match steps with
    | [] => []
    | _ :: _ =>
        Page.markdown (PStr "### 建议步骤")
        :: map (fun p => Page.markdown
                           (PStr (Str.of_nat (fst p) ++ ". " ++ snd p)))
             (enumerate 1 steps)
    end in
  (exists report link,
      Main.basic_report w timestamp legal_domain query (PDict reply)
      = Some report
      /\ Page.get_download_link report "法律咨询报告.txt" "下载分析报告"
         = Some link
      /\ Page.basic_display py w timestamp legal_domain query (PDict reply)
         = Some ([Page.markdown (PStr "### 法律建议"); answer]
                   ++ shown_references ++ [Page.html link])%list)
  /\ (exists report link,
        Main.document_report w timestamp doc_name doc_query (PDict reply)
        = Some report
        /\ Page.get_download_link report "法律文件解读报告.txt" "下载分析报告"
           = Some link
        /\ Page.document_display py w timestamp doc_name doc_query
             (PDict reply)
           = Some ([Page.markdown (PStr "### 文件解读"); answer]
                     ++ shown_references ++ [Page.html link])%list)
  /\ (exists report link,
        Main.case_report w timestamp legal_domain case_details case_query
          (PDict reply)
        = Some report
        /\ Page.get_download_link report "案件研究报告.txt" "下载分析报告"
           = Some link
        /\ Page.case_display py w timestamp legal_domain case_details
             case_query (PDict reply)
           = Some ([Page.markdown (PStr "### 案件分析"); answer]
                     ++ shown_steps ++ shown_references
                     ++ [Page.html link])%list).
Proof.
  intros R S E answer shown_references shown_steps.
  unfold Page.basic_display, Page.document_display, Page.case_display.
  rewrite (reference_expander_texts py w reply references R).
  rewrite (step_list_texts py w reply steps S).
  revert E.
  unfold Main.basic_report, Main.document_report, Main.case_report.
  rewrite (reference_lines_texts reply references R).
  rewrite (step_lines_texts reply steps S). cbn [get]. intros E.
  split; [| split]; eexists; eexists; (split; [reflexivity |]);
    unfold Page.get_download_link.
  - rewrite (E _ (or_introl eq_refl)). now split.
  - rewrite (E _ (or_intror (or_introl eq_refl))). now split.
  - rewrite (E _ (or_intror (or_intror (or_introl eq_refl)))). now split.
Qed.

Lemma tabs_show_result_witness :
  exists report link,
    Main.case_report (Scenario.answering "{}") Scenario.clock "劳动法"
      "公司在试用期内辞退员工" "如何维权" Scenario.strategy
    = Some report
    /\ Page.get_download_link report "案件研究报告.txt" "下载分析报告"
       = Some link
    /\ Page.case_display Cases.python (Scenario.answering "{}") Scenario.clock
         "劳动法" "公司在试用期内辞退员工" "如何维权" Scenario.strategy
       = Some [Page.markdown (PStr "### 案件分析");
               Page.markdown (PStr "可以申请劳动仲裁。");
               Page.markdown (PStr "### 建议步骤");
               Page.markdown (PStr "1. 收集证据");
               Page.markdown (PStr "2. 申请仲裁");
               Page.expander "法律参考" true
                 [Page.markdown (PStr "- 《劳动合同法》第48条")];
               Page.html link].
Proof.
  assert (R : Spec.texts_under
                [("answer", PStr "可以申请劳动仲裁。");
                 ("steps", PList [PStr "收集证据"; PStr "申请仲裁"]);
                 ("references", PList [PStr "《劳动合同法》第48条"])]
                "references" ["《劳动合同法》第48条"])
    by (right; reflexivity).
  assert (S : Spec.texts_under
                [("answer", PStr "可以申请劳动仲裁。");
                 ("steps", PList [PStr "收集证据"; PStr "申请仲裁"]);
                 ("references", PList [PStr "《劳动合同法》第48条"])]
                "steps" ["收集证据"; "申请仲裁"])
    by (right; reflexivity).
  refine (proj2 (proj2 (tabs_show_result Cases.python
                          (Scenario.answering "{}") Scenario.clock "劳动法"
                          "如何维权" "如何维权" "公司在试用期内辞退员工"
                          "如何维权" None _ _ _ R S _))).
  intros report [H | [H | [H | []]]]; injection H as <-;
    vm_compute; reflexivity.
Defined.

End TabDisplay.
